(** * Verification of the codex-cli HTTP gateway, capability filter,
      model-availability check, input builder and Vertex AI stream adapter.

    The development is a shallow embedding of
      - [examples/http-server] (the read-only HTTP server: [filterMessageForReadOnly],
        [handleChatRequest], [handleSessionTerminate]),
      - [src/utils/model-utils.ts] ([isModelSupported], and [createInputItem]),
      - [src/utils/agent/vertex-ai-client.ts] (message flattening, [transformChunk],
        [createStreamAdapter]).

    JavaScript values are modelled as the code types them: strings as [string],
    arrays as [list], [Map<string, AgentLoop>] as [gmap string AgentLoop],
    [Set<string>] as [gset string], optional fields as [option].

    A JavaScript string is a sequence of UTF-16 code units, and [length],
    [substring], [trim], [split], [===] and the order of [sort] all work on
    code units.  A [string] here holds one code unit per character, so the
    strings of this development are the JavaScript strings whose code units
    are below 256 (the character with code 160 is U+00A0, not a byte of an
    encoding). *)

From Stdlib Require Import String Ascii List Bool Arith Lia.
From stdpp Require Import base decidable option list sorting gmap strings pretty.
Import ListNotations.
Local Open Scope string_scope.

(** ** JavaScript string helpers *)

Module Js.

(** The line terminator written [\n] in the source's template literals. *)
Definition nl : string := String (ascii_of_nat 10) EmptyString.

(** [Array.prototype.join(sep)] on an array of strings: the elements are
    appended left to right with [sep] between consecutive elements; an empty
    array gives the empty string.  An element that is [undefined] (here
    [None]) is joined as the empty string. *)
Definition str_of (x : option string) : string :=
  match x with Some s => s | None => "" end.

Definition join_opt (sep : string) (xs : list (option string)) : string :=
  match xs with
  | [] => ""
  | x :: rest => fold_left (fun acc y => acc ++ sep ++ str_of y) rest (str_of x)
  end.

Definition join (sep : string) (xs : list string) : string :=
  join_opt sep (map Some xs).

(** [s.includes(t)]: [t] occurs in [s] as a contiguous substring. *)
Definition includes (s t : string) : Prop :=
  exists pre post, s = pre ++ t ++ post.


(** The code units removed by [String.prototype.trim]: ECMAScript's
    WhiteSpace (TAB, VT, FF, SP, NBSP U+00A0, ZWNBSP U+FEFF and the other
    space separators U+1680, U+2000 to U+200A, U+202F, U+205F, U+3000) and
    LineTerminator (LF, CR, U+2028, U+2029). *)
Definition isWhiteSpaceUnit (u : N) : bool :=
  (N.leb 9 u && N.leb u 13) || N.eqb u 32 || N.eqb u 160 || N.eqb u 5760
  || (N.leb 8192 u && N.leb u 8202) || N.eqb u 8232 || N.eqb u 8233
  || N.eqb u 8239 || N.eqb u 8287 || N.eqb u 12288 || N.eqb u 65279.

(** On the code units a [string] holds these are TAB, LF, VT, FF, CR, SP
    and NBSP. *)
Definition isWhiteSpace (c : ascii) : bool := isWhiteSpaceUnit (N_of_ascii c).

Fixpoint trimStart (s : string) : string :=
  match s with
  | EmptyString => EmptyString
  | String c rest => if isWhiteSpace c then trimStart rest else s
  end.

Fixpoint trimEnd (s : string) : string :=
  match s with
  | EmptyString => EmptyString
  | String c rest =>
      match trimEnd rest with
      | EmptyString => if isWhiteSpace c then EmptyString else String c EmptyString
      | r => String c r
      end
  end.

Definition trim (s : string) : string := trimEnd (trimStart s).

(** [s.startsWith(prefix)]. *)
Definition startsWith (s prefix : string) : bool := String.prefix prefix s.

(** [s.split(sep)] for a separator of one character: the pieces between
    the occurrences of [sep], empty pieces included; a string without the
    separator (the empty string too) gives one piece. *)
Fixpoint split (sep : ascii) (s : string) : list string :=
  match s with
  | EmptyString => [EmptyString]
  | String c rest =>
      if Ascii.eqb c sep then EmptyString :: split sep rest
      else
        match split sep rest with
        | piece :: pieces => String c piece :: pieces
        | [] => [String c EmptyString]
        end
  end.

(** [s.substring(0, n)]. *)
Fixpoint substring0 (n : nat) (s : string) : string :=
  match n, s with
  | S m, String c rest => String c (substring0 m rest)
  | _, _ => EmptyString
  end.

End Js.

(** ** The chat-completion message types shared by the sources *)

Module OpenAI.

(** [ChatCompletionMessageToolCall]: [{ id, type, function: { name, arguments } }]. *)
Record FunctionCall := mkFunctionCall {
  fn_name : string;
  fn_arguments : string
}.

Record ToolCall := mkToolCall {
  tc_id : string;
  tc_type : string;
  tc_function : FunctionCall
}.

Inductive Role := system | user | assistant | tool.

(** [ChatCompletionContentPart]: a text part or an [image_url] part. *)
Inductive ContentPart :=
| TextPart (text : string)
| ImageUrlPart (url : string).

(** The [content] field: a string, an array of parts, or absent/null. *)
Inductive Content :=
| ContentString (s : string)
| ContentParts (parts : list ContentPart)
| ContentNone.

(** [ChatCompletionMessageParam].  [tool_calls = None] stands for a field
    that is absent or [undefined]; [Some l] for an array (truthy in
    JavaScript even when empty). *)
Record ChatCompletionMessageParam := mkMessage {
  role : Role;
  content : Content;
  tool_calls : option (list ToolCall);
  tool_call_id : option string
}.

(** What a [throw] (or a rejected promise) carries: an [Error] object with
    its [message], or some other value. *)
Inductive Thrown :=
| ErrorObject (message : string)
| OtherValue.

(** The outcome of a call that may throw. *)
Inductive Result (A : Type) :=
| Ok (value : A)
| Throw (e : Thrown).
Arguments Ok {A} value.
Arguments Throw {A} e.

End OpenAI.

(** ** [createInputItem] (input-utils) *)

Module InputUtils.
Import OpenAI.

Section CreateInputItem.
(** The file system and the file-type sniffer are collaborators:
    [readFile] is [fs.readFile] (it rejects when the path cannot be read),
    [fileTypeFromBuffer] gives [kind?.mime], [toBase64] is
    [binary.toString("base64")]. *)
Variable Buffer : Type.
Variable readFile : string -> Result Buffer.
Variable fileTypeFromBuffer : Buffer -> option string.
Variable toBase64 : Buffer -> string.

(** The [for (const filePath of images)] loop, threading the local array
    [content] it pushes to. *)
Fixpoint readImages (content : list ContentPart) (images : list string)
  : Result (list ContentPart) :=
  match images with
  | [] => Ok content
  | filePath :: rest =>
      match readFile filePath with
      | Throw e => Throw e
      | Ok binary =>
          let kind := fileTypeFromBuffer binary in
          let encoded := toBase64 binary in
          let mime := match kind with Some m => m | None => "application/octet-stream" end in
          readImages
            (content ++ [ImageUrlPart ("data:" ++ mime ++ ";base64," ++ encoded)])
            rest
      end
  end.

Definition createInputItem (text : string) (images : list string)
  : Result ChatCompletionMessageParam :=
  match readImages [TextPart text] images with
  | Throw e => Throw e
  | Ok _content =>
      let inputItem :=
        {| role := user;
           content := ContentParts [TextPart text];
           tool_calls := None;
           tool_call_id := None |} in
      Ok inputItem
  end.
End CreateInputItem.

End InputUtils.

(** ** The model-availability check (model-utils) *)

Module ModelUtils.
Import OpenAI.

Definition MODEL_LIST_TIMEOUT_MS : nat := 2000.
Definition RECOMMENDED_MODELS : list string := ["o4-mini"; "o3"].

(** [Array.prototype.includes] on an array of strings. *)
Definition includes (xs : list string) (x : string) : bool :=
  existsb (String.eqb x) xs.

(** A promise of the model list, seen from the call that races it: it
    settles [settlesAfter] milliseconds after that call, or never, and is then
    fulfilled with a list or rejected. *)
Inductive Settlement :=
| Fulfilled (models : list string)
| Rejected (e : Thrown).

Record ModelsPromise := mkPromise {
  settlesAfter : option nat;
  settlement : Settlement
}.

(** [AppConfig], the fields read here. *)
Record AppConfig := mkConfig {
  apiKey : option string;
  baseURL : option string;
  model : string;
  instructions : option string
}.

(** What [openai.models.list()] and the iteration over it do: deliver the
    entries after some delay, or fail. *)
Inductive Network :=
| ListsModels (delay : nat) (entries : list (option string))
| Fails (delay : nat)
| Hangs.

Definition truthy (s : option string) : bool :=
  match s with Some s => negb (String.eqb s "") | None => false end.

(** [fetchModels]: no API key gives the empty list at once; a failure of the
    listing is caught and gives the empty list; otherwise the ids that are
    strings, sorted. *)
Definition fetchModels (config : AppConfig) (net : Network) : ModelsPromise :=
  if negb (truthy (apiKey config)) then mkPromise (Some 0) (Fulfilled [])
  else
    match net with
    | ListsModels delay entries =>
        let models := omap (fun id => id) entries in
        mkPromise (Some delay) (Fulfilled (merge_sort (fun a b => Is_true (String.leb a b)) models))
    | Fails delay => mkPromise (Some delay) (Fulfilled [])
    | Hangs => mkPromise None (Fulfilled [])
    end.

(** [getAvailableModels], on the module-level variable [modelsPromise]
    (passed in and returned). *)
Definition getAvailableModels (config : AppConfig) (net : Network)
    (modelsPromise : option ModelsPromise) : ModelsPromise * option ModelsPromise :=
  match modelsPromise with
  | Some p => (p, Some p)
  | None => let p := fetchModels config net in (p, Some p)
  end.

(** [Promise.race] of the models promise against the timer that resolves to
    [[]] after [MODEL_LIST_TIMEOUT_MS]. *)
Definition raceTimeout (p : ModelsPromise) : Settlement :=
  match settlesAfter p with
  | Some t => if Nat.ltb t MODEL_LIST_TIMEOUT_MS then settlement p else Fulfilled []
  | None => Fulfilled []
  end.

Definition isModelSupported (model : option string) (config : AppConfig)
    (net : Network) (modelsPromise : option ModelsPromise)
  : bool * option ModelsPromise :=
  match model with
  | None => (true, modelsPromise)
  | Some m =>
      if String.eqb (Js.trim m) "" || includes RECOMMENDED_MODELS m
      then (true, modelsPromise)
      else
        let '(p, cache) := getAvailableModels config net modelsPromise in
        match raceTimeout p with
        | Fulfilled models =>
            if Nat.eqb (List.length models) 0 then (true, cache)
            else (includes models (Js.trim m), cache)
        | Rejected _ => (true, cache)
        end
  end.

(** [preloadModels]: starts the fetch unless one has been started. *)
Definition preloadModels (config : AppConfig) (net : Network)
    (modelsPromise : option ModelsPromise) : option ModelsPromise :=
  match modelsPromise with
  | None => snd (getAvailableModels config net modelsPromise)
  | Some _ => modelsPromise
  end.

End ModelUtils.

(** ** The HTTP server: capability filter and session gateway *)

Module HttpServer.
Import OpenAI.

Definition READ_ONLY_TOOLS : gset string :=
  list_to_set
    ["Read"; "Glob"; "Grep"; "LS"; "NotebookRead"; "WebFetch"; "WebSearch"; "TodoRead"].

Definition WRITE_TOOLS : gset string :=
  list_to_set
    ["Edit"; "MultiEdit"; "Write"; "NotebookEdit"; "Bash"; "TodoWrite"; "Task"].

Definition isReadOnlyToolCall (toolCall : ToolCall) : bool :=
  let functionName := fn_name (tc_function toolCall) in
  bool_decide (functionName ∈ READ_ONLY_TOOLS).

Definition isWriteToolCall (toolCall : ToolCall) : bool :=
  let functionName := fn_name (tc_function toolCall) in
  bool_decide (functionName ∈ WRITE_TOOLS).

(** The template literal [friendlyMessage], with [writeOperations] spliced in. *)
Definition friendlyMessage (writeOperations : string) : string :=
  "I can see you'd like me to perform write operations (" ++ writeOperations
  ++ "), but I'm running in read-only mode via HTTP. I can help you understand your codebase, analyze files, search for patterns, and answer questions, but I cannot modify files or execute commands."
  ++ Js.nl ++ Js.nl
  ++ "Would you like me to help you explore or analyze your code instead?".

Definition isTool (r : Role) : bool :=
  match r with tool => true | _ => false end.

Definition isAssistant (r : Role) : bool :=
  match r with assistant => true | _ => false end.

(** The first [if] of [filterMessageForReadOnly]: [Some r] when one of its
    [return] statements is reached, [None] when control falls through. *)
Definition filterAssistantToolCalls (item : ChatCompletionMessageParam)
  : option ChatCompletionMessageParam :=
  match isAssistant (role item), tool_calls item with
  | true, Some calls =>
      let writeToolCalls := List.filter isWriteToolCall calls in
      let readToolCalls := List.filter isReadOnlyToolCall calls in
      if Nat.ltb 0 (List.length writeToolCalls) then
        let writeOperations :=
          Js.join ", " (map (fun tc => fn_name (tc_function tc)) writeToolCalls) in
        if Nat.ltb 0 (List.length readToolCalls) then
          Some {| role := role item;
                  content :=
                    ContentString
                      ((match content item with
                        | ContentString s => s ++ Js.nl ++ Js.nl
                        | _ => ""
                        end) ++ friendlyMessage writeOperations);
                  tool_calls := Some readToolCalls;
                  tool_call_id := tool_call_id item |}
        else
          Some {| role := role item;
                  content := ContentString (friendlyMessage writeOperations);
                  tool_calls := None;
                  tool_call_id := tool_call_id item |}
      else None
  | _, _ => None
  end.

(** [filterMessageForReadOnly(item): ChatCompletionMessageParam | null];
    [None] is the source's [null]. *)
Definition filterMessageForReadOnly (item : ChatCompletionMessageParam)
  : option ChatCompletionMessageParam :=
  match filterAssistantToolCalls item with
  | Some rewritten => Some rewritten
  | None =>
      if isTool (role item) && bool_decide (is_Some (tool_call_id item))
      then Some item
      else Some item
  end.

(** *** The session gateway *)

(** [AutoApprovalMode] and [ReviewDecision] are imported enumerations; the
    server only ever uses [SUGGEST] and [NO_CONTINUE]. *)
Inductive AutoApprovalMode := SUGGEST | AUTO_EDIT | FULL_AUTO.
Inductive ReviewDecision := YES | NO_CONTINUE | NO_EXIT | ALWAYS | EXPLAIN.

Record ChatRequest := mkChatRequest {
  prompt : string;
  imagePaths : option (list string);
  approvalMode : option AutoApprovalMode;
  req_sessionId : option string
}.

Inductive Status := completed | error.

Record ChatResponse := mkChatResponse {
  sessionId : string;
  messages : list ChatCompletionMessageParam;
  status : Status;
  error_message : option string
}.

(** An [AgentLoop] instance, as far as the server determines it: the
    arguments of its constructor.  The [onItem] callback is a closure over
    the [messages] array of the request that constructed the agent, so it is
    represented by that array's address in the store of arrays;
    [getCommandConfirmation] always resolves to the same decision. *)
Record AgentLoop := mkAgentLoop {
  agent_model : string;
  agent_instructions : string;
  agent_approvalPolicy : AutoApprovalMode;
  agent_onItem : nat;
  agent_getCommandConfirmation : ReviewDecision
}.

(** What one call of [agent.run] does, seen from the server: the items it
    hands to [onItem], in order, and whether it then returns or throws. *)
Record AgentTurn := mkAgentTurn {
  emitted : list ChatCompletionMessageParam;
  thrown : option Thrown
}.

(** The server's mutable state: the module-level [activeSessions] map and
    the [messages] arrays allocated so far (an array is addressed by its
    position in [arrays]). *)
Record ServerState := mkServerState {
  activeSessions : gmap string AgentLoop;
  arrays : list (list ChatCompletionMessageParam)
}.

Definition readOnlyInstructions (config : ModelUtils.AppConfig) : string :=
  Js.str_of (ModelUtils.instructions config) ++ Js.nl ++ Js.nl
  ++ "IMPORTANT: You are running in READ-ONLY HTTP mode. You can only:" ++ Js.nl
  ++ "- Read files (Read, Glob, Grep, LS, NotebookRead)" ++ Js.nl
  ++ "- Search and analyze code" ++ Js.nl
  ++ "- Answer questions about the codebase" ++ Js.nl
  ++ "- Provide explanations and documentation" ++ Js.nl ++ Js.nl
  ++ "You CANNOT:" ++ Js.nl
  ++ "- Edit or write files (Edit, MultiEdit, Write, NotebookEdit)" ++ Js.nl
  ++ "- Execute commands (Bash)" ++ Js.nl
  ++ "- Create todos (TodoWrite)" ++ Js.nl
  ++ "- Perform any modification operations" ++ Js.nl ++ Js.nl
  ++ "If the user asks you to modify files or run commands, politely explain that you're in read-only mode and offer to help with code analysis instead.".

(** The [onItem] callback of an agent: filter, then push onto the array the
    closure captured. *)
Definition onItem (target : nat) (item : ChatCompletionMessageParam)
    (arrs : list (list ChatCompletionMessageParam))
  : list (list ChatCompletionMessageParam) :=
  match filterMessageForReadOnly item with
  | Some filteredItem => alter (fun a => (a ++ [filteredItem])%list) target arrs
  | None => arrs
  end.

Definition errorMessageOf (e : Thrown) : string :=
  match e with
  | ErrorObject message => message
  | OtherValue => "Unknown error"
  end.

Section HandleChatRequest.
Variable Buffer : Type.
Variable readFile : string -> Result Buffer.
Variable fileTypeFromBuffer : Buffer -> option string.
Variable toBase64 : Buffer -> string.

(** [handleChatRequest], after the body has been read and parsed into
    [chatRequest].  [uuid] is what [randomUUID()] returns if it is called;
    [run] is the behaviour of [agent.run] in this turn. *)
Definition handleChatRequest
    (config : ModelUtils.AppConfig)
    (uuid : string)
    (run : AgentLoop -> list ChatCompletionMessageParam -> AgentTurn)
    (chatRequest : ChatRequest)
    (st : ServerState) : ServerState * ChatResponse :=
  let sessionId :=
    match req_sessionId chatRequest with
    | Some s => if String.eqb s "" then uuid else s
    | None => uuid
    end in
  let approvalPolicy := SUGGEST in
  (* const messages = [] *)
  let messages := List.length (arrays st) in
  let arrs := (arrays st ++ [[]])%list in
  (* try { *)
  let '(agent, sessions) :=
    match activeSessions st !! sessionId with
    | Some agent => (agent, activeSessions st)
    | None =>
        let agent :=
          {| agent_model := ModelUtils.model config;
             agent_instructions := readOnlyInstructions config;
             agent_approvalPolicy := approvalPolicy;
             agent_onItem := messages;
             agent_getCommandConfirmation := NO_CONTINUE |} in
        (agent, <[sessionId := agent]> (activeSessions st))
    end in
  let '(arrs, failure) :=
    match InputUtils.createInputItem Buffer readFile fileTypeFromBuffer toBase64
            (prompt chatRequest)
            (match imagePaths chatRequest with Some l => l | None => [] end) with
    | Throw e => (arrs, Some e)
    | Ok inputItem =>
        let turn := run agent [inputItem] in
        (fold_left (fun a item => onItem (agent_onItem agent) item a) (emitted turn) arrs,
         thrown turn)
    end in
  (* } catch (error) { hasError = true; errorMessage = ... } *)
  let response :=
    {| sessionId := sessionId;
       messages := match arrs !! messages with Some a => a | None => [] end;
       status := match failure with Some _ => error | None => completed end;
       error_message := errorMessageOf <$> failure |} in
  ({| activeSessions := sessions; arrays := arrs |}, response).
End HandleChatRequest.

(** [handleSessionTerminate]: the HTTP status written, and the new state.
    [agent.terminate()] acts on the agent only. *)
Definition handleSessionTerminate (sessionId : string) (st : ServerState)
  : ServerState * nat :=
  match activeSessions st !! sessionId with
  | Some _agent =>
      ({| activeSessions := delete sessionId (activeSessions st); arrays := arrays st |}, 200)
  | None => (st, 404)
  end.

(** *** The request listener of [runServer] *)

(** An incoming request as the listener reads it: the method, the
    [pathname] that [parse(req.url)] gives ([None] for [null]), and the
    outcome of [JSON.parse] on the body: [Throw] when the body is not JSON,
    [Ok None] when it is the JSON text [null], [Ok (Some chatRequest)] when
    it is an object with the fields of [ChatRequest].  ([null] is the only
    JSON value on which reading a field throws.) *)
Record HttpRequest := mkHttpRequest {
  http_method : string;
  http_pathname : option string;
  http_body : Result (option ChatRequest)
}.

Inductive Payload :=
| NoBody
| HealthBody (status version : string)
| ChatBody (response : ChatResponse)
| MessageBody (message : string)
| ErrorBody (error : string).

Record HttpResponse := mkHttpResponse {
  http_code : nat;
  http_payload : Payload
}.

Definition slash : ascii := ascii_of_nat 47.

Section RequestListener.
Variable Buffer : Type.
Variable readFile : string -> Result Buffer.
Variable fileTypeFromBuffer : Buffer -> option string.
Variable toBase64 : Buffer -> string.

(** The callback given to [createServer]: what is written to [res], and
    the state afterwards.  An exception escaping a handler is answered 500;
    [handleChatRequest] lets two escape, both raised before its [try]
    block: that of [JSON.parse(body)], and the [TypeError] of
    [chatRequest.sessionId] when the body parsed to [null]. *)
Definition requestListener
    (config : ModelUtils.AppConfig)
    (uuid : string)
    (run : AgentLoop -> list ChatCompletionMessageParam -> AgentTurn)
    (req : HttpRequest)
    (st : ServerState) : ServerState * HttpResponse :=
  if String.eqb (http_method req) "OPTIONS" then (st, mkHttpResponse 200 NoBody)
  else
    let pathIs (p : string) :=
      match http_pathname req with Some q => String.eqb q p | None => false end in
    if String.eqb (http_method req) "POST" && pathIs "/chat" then
      match http_body req with
      | Throw _ => (st, mkHttpResponse 500 (ErrorBody "Internal server error"))
      | Ok None => (st, mkHttpResponse 500 (ErrorBody "Internal server error"))
      | Ok (Some chatRequest) =>
          let '(st', response) :=
            handleChatRequest Buffer readFile fileTypeFromBuffer toBase64
              config uuid run chatRequest st in
          (st', mkHttpResponse 200 (ChatBody response))
      end
    else if String.eqb (http_method req) "GET" && pathIs "/health" then
      (st, mkHttpResponse 200 (HealthBody "ok" "0.1.31"))
    else if String.eqb (http_method req) "DELETE"
            && match http_pathname req with
               | Some q => Js.startsWith q "/sessions/"
               | None => false
               end then
      let sessionId :=
        match http_pathname req with
        | Some q => nth_error (Js.split slash q) 2
        | None => None
        end in
      match sessionId with
      | Some (String c rest) =>
          let '(st', code) := handleSessionTerminate (String c rest) st in
          (st',
           mkHttpResponse code
             (if Nat.eqb code 200 then MessageBody "Session terminated"
              else ErrorBody "Session not found"))
      | _ => (st, mkHttpResponse 400 (ErrorBody "Session ID required"))
      end
    else (st, mkHttpResponse 404 (ErrorBody "Not found")).
End RequestListener.

End HttpServer.

(** ** The Vertex AI client: message conversion and the stream adapter *)

Module VertexAI.

(** [interface ChatMessage { role: string;
      content: string | Array<{type: string; text?: string}> }].
    An element of the array is tested with [typeof c === 'string'] before
    its fields are read, so both shapes are kept. *)
Record MessagePart := mkPart {
  part_type : string;
  part_text : option string
}.

Inductive PartElement :=
| StringElement (s : string)
| ObjectElement (p : MessagePart).

Inductive MessageContent :=
| StringContent (s : string)
| ArrayContent (parts : list PartElement)
| OtherContent.

Record ChatMessage := mkChatMessage {
  msg_role : string;
  msg_content : MessageContent
}.

(** The callback of [msg.content.map(...)]:
    [typeof c === 'string' ? c : (c.type === 'text' ? c.text : '')]. *)
Definition partText (c : PartElement) : option string :=
  match c with
  | StringElement s => Some s
  | ObjectElement p =>
      if String.eqb (part_type p) "text" then part_text p else Some ""
  end.

(** The expression that computes [content] from [msg.content] (it occurs
    twice in [create], for the turns and for the system instruction). *)
Definition flattenContent (content : MessageContent) : string :=
  match content with
  | StringContent s => s
  | ArrayContent parts => Js.join_opt " " (map partText parts)
  | OtherContent => ""
  end.

(** A Vertex AI turn: [{ role, parts: [{text}] }]. *)
Record VertexContent := mkVertexContent {
  vc_role : string;
  vc_parts : list string
}.

Definition toContent (msg : ChatMessage) : VertexContent :=
  let content := flattenContent (msg_content msg) in
  let role := if String.eqb (msg_role msg) "assistant" then "model" else "user" in
  {| vc_role := role; vc_parts := [content] |}.

Definition contents (messages : list ChatMessage) : list VertexContent :=
  let nonSystemMessages :=
    List.filter (fun msg => negb (String.eqb (msg_role msg) "system")) messages in
  map toContent nonSystemMessages.

Definition systemInstruction (messages : list ChatMessage) : option VertexContent :=
  match List.find (fun msg => String.eqb (msg_role msg) "system") messages with
  | Some systemMessage =>
      Some {| vc_role := "system";
              vc_parts := [flattenContent (msg_content systemMessage)] |}
  | None => None
  end.

(** *** [transformChunk] *)

(** A function call of a native chunk; [fc_args] is the [args] object,
    held as the text [JSON.stringify] gives for it. *)
Record FunctionCallPart := mkFunctionCallPart {
  fc_name : string;
  fc_args : option string
}.

Record VertexAIContentPart := mkContentPart {
  text : option string;
  functionCall : option FunctionCallPart
}.

Record VertexAICandidate := mkCandidate {
  parts : list VertexAIContentPart;
  finishReason : option string
}.

Record VertexAIChunk := mkChunk {
  candidates : option (list VertexAICandidate)
}.

Record ToolCallDelta := mkToolCallDelta {
  call_id : string;
  call_type : string;
  call_name : string;
  call_arguments : string
}.

Record Delta := mkDelta {
  delta_role : string;
  delta_content : option string;
  delta_tool_calls : option (list ToolCallDelta)
}.

(** [ChatCompletionStreamOutput], with its single choice inlined. *)
Record ChatCompletionStreamOutput := mkOutput {
  out_id : string;
  out_object : string;
  out_created : N;
  out_model : string;
  choice_index : nat;
  delta : Delta;
  finish_reason : option string
}.

(** [chunk.candidates?.[0]] and [chunk.candidates?.[0]?.content?.parts?.[0]]. *)
Definition firstCandidate (chunk : VertexAIChunk) : option VertexAICandidate :=
  match candidates chunk with
  | Some (c :: _) => Some c
  | _ => None
  end.

Definition firstPart (chunk : VertexAIChunk) : option VertexAIContentPart :=
  match firstCandidate chunk with
  | Some c => match parts c with p :: _ => Some p | [] => None end
  | None => None
  end.

Definition nonEmpty (s : option string) : option string :=
  match s with
  | Some t => if String.eqb t "" then None else Some t
  | None => None
  end.

(** [now] is the value of [Date.now()] during the call, in milliseconds. *)
Definition transformChunk (chunk : VertexAIChunk) (model : string) (index : nat) (now : N)
  : ChatCompletionStreamOutput :=
  let content :=
    match firstPart chunk with
    | Some p => match nonEmpty (text p) with Some t => t | None => "" end
    | None => ""
    end in
  let functionCall :=
    match firstPart chunk with
    | Some p =>
        match functionCall p with
        | Some fc =>
            Some (fc_name fc, match fc_args fc with Some a => a | None => "{}" end)
        | None => None
        end
    | None => None
    end in
  {| out_id := "chatcmpl-" ++ pretty now ++ "-" ++ pretty index;
     out_object := "chat.completion.chunk";
     out_created := (now / 1000)%N;
     out_model := model;
     choice_index := 0;
     delta :=
       match functionCall with
       | Some (name, arguments) =>
           {| delta_role := "assistant";
              delta_content := None;
              delta_tool_calls :=
                Some [ {| call_id := "call-" ++ pretty now ++ "-" ++ pretty index;
                          call_type := "function";
                          call_name := name;
                          call_arguments := arguments |} ] |}
       | None =>
           {| delta_role := "assistant";
              delta_content := Some content;
              delta_tool_calls := None |}
       end;
     finish_reason :=
       match firstCandidate chunk with
       | Some c => nonEmpty (finishReason c)
       | None => None
       end |}.

(** *** The stream returned by [createStreamAdapter] *)

(** The part of Node's object-mode [Readable] that the adapter and its
    consumer exercise: the internal queue filled by [push], the EOF mark set
    by [push(null)], destruction, the error the iteration will throw, and
    whether an ['error'] listener is attached.  The adapter attaches none;
    the stream's async iterator attaches one when the consumer calls
    [next()] for the first time. *)
Record Readable := mkReadable {
  buffer : list ChatCompletionStreamOutput;
  ended : bool;
  destroyed : bool;
  errorEvent : option OpenAI.Thrown;
  errorListener : bool
}.

Definition newReadable : Readable :=
  {| buffer := []; ended := false; destroyed := false; errorEvent := None;
     errorListener := false |}.

Definition ERR_STREAM_PUSH_AFTER_EOF : OpenAI.Thrown :=
  OpenAI.ErrorObject "stream.push() after EOF".

(** [readable.push(chunk)] for a chunk that is not [null]: a push after the
    EOF mark is an error that destroys the stream (unless it is destroyed
    already); a destroyed stream ignores the chunk; otherwise the chunk is
    queued. *)
Definition push (chunk : ChatCompletionStreamOutput) (r : Readable) : Readable :=
  if ended r then
    if destroyed r then r
    else {| buffer := buffer r; ended := true; destroyed := true;
            errorEvent := Some ERR_STREAM_PUSH_AFTER_EOF;
            errorListener := errorListener r |}
  else if destroyed r then r
  else {| buffer := (buffer r ++ [chunk])%list; ended := false;
          destroyed := false; errorEvent := errorEvent r;
          errorListener := errorListener r |}.

(** [readable.push(null)]: marks EOF after whatever is queued; a second
    mark changes nothing. *)
Definition pushNull (r : Readable) : Readable :=
  {| buffer := buffer r; ended := true; destroyed := destroyed r;
     errorEvent := errorEvent r; errorListener := errorListener r |}.

(** [readable.emit('error', error)], called in the [catch] block of the
    background loop.  With the iterator's listener attached the error is
    kept for the iteration to throw once the queue is empty (a destroyed
    stream has no iteration left to throw it).  Without an ['error']
    listener [emit] itself throws: the exception leaves the [catch] block,
    the promise of the background function (which nobody holds) is
    rejected, and the stream is left as it was, neither ended nor failed. *)
Definition emitError (e : OpenAI.Thrown) (r : Readable) : Readable :=
  if errorListener r && negb (destroyed r) then
    {| buffer := buffer r; ended := ended r; destroyed := false;
       errorEvent := match errorEvent r with Some e0 => Some e0 | None => Some e end;
       errorListener := true |}
  else r.

(** What one step of the consumer's iteration observes. *)
Inductive Observation :=
| Item (chunk : ChatCompletionStreamOutput)
| Done
| Failed (e : OpenAI.Thrown)
| Pending.

(** One step of the stream's async iterator: a destroyed stream is not read
    any more; a queued chunk is delivered; with an empty queue a pending
    error is thrown, an EOF mark ends the iteration (and the stream
    destroys itself), and otherwise the consumer waits.  The iterator's
    listeners are attached by the first step, whatever it observes. *)
Definition next (r : Readable) : Observation * Readable :=
  if destroyed r then
    (match errorEvent r with Some e => Failed e | None => Done end,
     {| buffer := buffer r; ended := ended r; destroyed := true;
        errorEvent := errorEvent r; errorListener := true |})
  else
    match buffer r with
    | chunk :: rest =>
        (Item chunk,
         {| buffer := rest; ended := ended r; destroyed := false;
            errorEvent := errorEvent r; errorListener := true |})
    | [] =>
        match errorEvent r with
        | Some e =>
            (Failed e,
             {| buffer := []; ended := ended r; destroyed := true; errorEvent := Some e;
                errorListener := true |})
        | None =>
            if ended r then
              (Done, {| buffer := []; ended := true; destroyed := true; errorEvent := None;
                        errorListener := true |})
            else
              (Pending,
               {| buffer := []; ended := false; destroyed := false; errorEvent := None;
                  errorListener := true |})
        end
    end.

(** The adapter: the provider iteration still to be consumed by the
    background loop (and whether it ends by throwing), the loop's [index],
    whether the loop is still running, and the stream. *)
Record Adapter := mkAdapter {
  vertexStream : list VertexAIChunk;
  vertexFailure : option OpenAI.Thrown;
  model : string;
  index : nat;
  pumping : bool;
  readable : Readable
}.

Definition createStreamAdapter (vertexStream : list VertexAIChunk)
    (vertexFailure : option OpenAI.Thrown) (model : string) : Adapter :=
  {| vertexStream := vertexStream; vertexFailure := vertexFailure; model := model;
     index := 0; pumping := true; readable := newReadable |}.

(** One iteration of the background [for await] loop (or its exit). *)
Definition pump (now : N) (a : Adapter) : Adapter :=
  if pumping a then
    match vertexStream a with
    | chunk :: rest =>
        let transformedChunk := transformChunk chunk (model a) (index a) now in
        {| vertexStream := rest; vertexFailure := vertexFailure a; model := model a;
           index := S (index a); pumping := true;
           readable := push transformedChunk (readable a) |}
    | [] =>
        {| vertexStream := []; vertexFailure := vertexFailure a; model := model a;
           index := index a; pumping := false;
           readable :=
             match vertexFailure a with
             | None => pushNull (readable a)
             | Some e => emitError e (readable a)
             end |}
    end
  else a.

(** [controller.abort()]. *)
Definition abort (a : Adapter) : Adapter :=
  {| vertexStream := vertexStream a; vertexFailure := vertexFailure a; model := model a;
     index := index a; pumping := pumping a;
     readable := pushNull (readable a) |}.

(** The three things that can happen to a stream, in any interleaving. *)
Inductive Event :=
| PumpStep (now : N)
| ConsumerNext
| AbortCall.

Definition step (ev : Event) (s : Adapter * list Observation)
  : Adapter * list Observation :=
  let '(a, seen) := s in
  match ev with
  | PumpStep now => (pump now a, seen)
  | AbortCall => (abort a, seen)
  | ConsumerNext =>
      let '(o, r) := next (readable a) in
      ({| vertexStream := vertexStream a; vertexFailure := vertexFailure a;
          model := model a; index := index a; pumping := pumping a; readable := r |},
       (seen ++ [o])%list)
  end.

Definition run (events : list Event) (a : Adapter) : Adapter * list Observation :=
  fold_left (fun s ev => step ev s) events (a, []).

Definition isItem (o : Observation) : bool :=
  match o with Item _ => true | _ => false end.

Definition isFailed (o : Observation) : bool :=
  match o with Failed _ => true | _ => false end.

(** *** [chat.completions.create] *)

(** [interface FunctionTool]; [tool_parameters] is the parameters object
    held as JSON text. *)
Record FunctionTool := mkFunctionTool {
  tool_type : string;
  tool_name : string;
  tool_description : option string;
  tool_parameters : option string
}.

Record FunctionDeclaration := mkFunctionDeclaration {
  decl_name : string;
  decl_description : string;
  decl_parameters : string
}.

Record CreateOptions := mkCreateOptions {
  opt_model : string;
  opt_messages : list ChatMessage;
  opt_stream : bool;
  opt_tools : option (list FunctionTool)
}.

(** The argument of [getGenerativeModel]. *)
Record GenerativeModelParams := mkModelParams {
  gm_model : string;
  gm_maxOutputTokens : nat;
  gm_systemInstruction : option VertexContent
}.

(** The argument of [generateContent] and [generateContentStream]. *)
Record GenerateRequest := mkGenerateRequest {
  gen_contents : list VertexContent;
  gen_tools : option (list FunctionDeclaration)
}.

Definition toFunctionDeclaration (tool : FunctionTool) : FunctionDeclaration :=
  {| decl_name := tool_name tool;
     decl_description :=
       match nonEmpty (tool_description tool) with Some d => d | None => "" end;
     decl_parameters :=
       match tool_parameters tool with Some ps => ps | None => "{}" end |}.

Definition functionDeclarations (tools : list FunctionTool) : list FunctionDeclaration :=
  map toFunctionDeclaration
    (List.filter (fun tool => String.eqb (tool_type tool) "function") tools).

Section Create.
(** The Vertex AI SDK: [generateContentStream] resolves to the chunks of
    the stream (and the error the iteration ends with, if any) or rejects;
    [generateContent] resolves to a response or rejects. *)
Variable Response : Type.
Variable generateContentStream :
  GenerativeModelParams -> GenerateRequest ->
  OpenAI.Result (list VertexAIChunk * option OpenAI.Thrown).
Variable generateContent :
  GenerativeModelParams -> GenerateRequest -> OpenAI.Result Response.

(** The last two steps shared by the four branches of [create]: the call,
    and the adapter around a stream; a rejection is logged and rethrown. *)
Definition callBackend (generativeModel : GenerativeModelParams) (model : string)
    (stream : bool) (request : GenerateRequest)
  : OpenAI.Result (Adapter + Response) :=
  if stream then
    match generateContentStream generativeModel request with
    | OpenAI.Ok (chunks, failure) =>
        OpenAI.Ok (inl (createStreamAdapter chunks failure model))
    | OpenAI.Throw e => OpenAI.Throw e
    end
  else
    match generateContent generativeModel request with
    | OpenAI.Ok response => OpenAI.Ok (inr response)
    | OpenAI.Throw e => OpenAI.Throw e
    end.

Definition create (options : CreateOptions) : OpenAI.Result (Adapter + Response) :=
  let generativeModel :=
    {| gm_model := opt_model options;
       gm_maxOutputTokens := 2048;
       gm_systemInstruction := systemInstruction (opt_messages options) |} in
  let contents := contents (opt_messages options) in
  let withoutTools :=
    callBackend generativeModel (opt_model options) (opt_stream options)
      {| gen_contents := contents; gen_tools := None |} in
  match opt_tools options with
  | Some (tool :: tools) =>
      let functionDeclarations := functionDeclarations (tool :: tools) in
      if Nat.ltb 0 (List.length functionDeclarations) then
        callBackend generativeModel (opt_model options) (opt_stream options)
          {| gen_contents := contents; gen_tools := Some functionDeclarations |}
      else withoutTools
  | _ => withoutTools
  end.
End Create.

End VertexAI.

(** ** The test client of the HTTP server *)

Module TestClient.

(** The two values [main] reads from [process.argv.slice(2)]:
    [args.find(arg => !arg.startsWith('--'))], and the element after
    ['--approval-mode'] ([undefined] when the flag is last), ['suggest']
    when the flag is absent. *)
Definition prompt (args : list string) : option string :=
  List.find (fun arg => negb (Js.startsWith arg "--")) args.

Fixpoint indexOf (x : string) (args : list string) : option nat :=
  match args with
  | [] => None
  | a :: rest =>
      if String.eqb a x then Some 0
      else match indexOf x rest with Some i => Some (S i) | None => None end
  end.

Definition approvalMode (args : list string) : option string :=
  match indexOf "--approval-mode" args with
  | Some approvalModeIndex => nth_error args (approvalModeIndex + 1)
  | None => Some "suggest"
  end.

(** The text [testChat] prints for an assistant message:
    [content.substring(0, 200)] followed by ['...'] when the content is
    longer than 200. *)
Definition preview (content : string) : string :=
  Js.substring0 200 content
  ++ (if Nat.ltb 200 (String.length content) then "..." else "").

End TestClient.

(** * Vocabulary of the statements *)

Module Vocabulary.
Import OpenAI HttpServer.

(** The tool calls a message carries (none when the field is absent). *)
Definition toolCallsOf (item : ChatCompletionMessageParam) : list ToolCall :=
  match tool_calls item with Some calls => calls | None => [] end.

Definition toolName (tc : ToolCall) : string := fn_name (tc_function tc).

(** The agent the server constructs for a request that allocated the
    [messages] array at address [sink]. *)
Definition newAgent (config : ModelUtils.AppConfig) (sink : nat) : AgentLoop :=
  {| agent_model := ModelUtils.model config;
     agent_instructions := readOnlyInstructions config;
     agent_approvalPolicy := SUGGEST;
     agent_onItem := sink;
     agent_getCommandConfirmation := NO_CONTINUE |}.

(** The items the callback of an agent pushes, for the items it is given. *)
Definition filtered (items : list ChatCompletionMessageParam)
  : list ChatCompletionMessageParam :=
  omap filterMessageForReadOnly items.

(** Every callback in the registry writes to an array that exists. *)
Definition sinksAllocated (st : ServerState) : Prop :=
  forall id agent,
    activeSessions st !! id = Some agent ->
    agent_onItem agent < List.length (arrays st).

(** Which identifier a request is served under: the one [randomUUID()]
    gives when the request names none (or an empty one), the caller's own
    otherwise. *)
Definition servedUnder (req : ChatRequest) (uuid id : string) : Prop :=
  (req_sessionId req = None /\ id = uuid) \/
  (req_sessionId req = Some "" /\ id = uuid) \/
  (req_sessionId req = Some id /\ id <> "").

(** Whether a character occurs in a string. *)
Fixpoint hasChar (c : ascii) (s : string) : bool :=
  match s with
  | EmptyString => false
  | String x rest => Ascii.eqb x c || hasChar c rest
  end.

(** Every registered agent is the read-only agent of the configuration:
    approval policy [SUGGEST], command confirmation [NO_CONTINUE], and the
    read-only instructions. *)
Definition registryReadOnly (config : ModelUtils.AppConfig) (st : ServerState) : Prop :=
  forall id agent,
    activeSessions st !! id = Some agent ->
    agent_approvalPolicy agent = SUGGEST /\
    agent_getCommandConfirmation agent = NO_CONTINUE /\
    agent_model agent = ModelUtils.model config /\
    agent_instructions agent = readOnlyInstructions config.

(** No assistant message of the list carries a write-capability call. *)
Definition noWriteCalls (msgs : list ChatCompletionMessageParam) : Prop :=
  forall m tc,
    In m msgs -> role m = assistant -> In tc (toolCallsOf m) -> isWriteToolCall tc = false.

(** One request as the server meets it: the value [randomUUID()] would
    give, what the agent does if it is run, and the request itself. *)
Record Arrival := mkArrival {
  arrival_uuid : string;
  arrival_run : AgentLoop -> list ChatCompletionMessageParam -> AgentTurn;
  arrival_request : HttpRequest
}.

Section WithFileSystem.
Variable Buffer : Type.
Variable readFile : string -> Result Buffer.
Variable fileTypeFromBuffer : Buffer -> option string.
Variable toBase64 : Buffer -> string.

(** What the turn leaves in the request's own array and whether it failed,
  for an agent constructed by this very request. *)
Definition turnOutcome (config : ModelUtils.AppConfig)
  (run : AgentLoop -> list ChatCompletionMessageParam -> AgentTurn)
  (req : ChatRequest) (sink : nat)
: list ChatCompletionMessageParam * option Thrown :=
match InputUtils.createInputItem Buffer readFile fileTypeFromBuffer toBase64
        (prompt req) (match imagePaths req with Some l => l | None => [] end) with
| Throw e => ([], Some e)
| Ok inputItem =>
    let turn := run (newAgent config sink) [inputItem] in
    (filtered (emitted turn), thrown turn)
end.

(** The image part the loop builds for a file it has read. *)
Definition imagePartOf (binary : Buffer) : ContentPart :=
ImageUrlPart
  ("data:"
   ++ match fileTypeFromBuffer binary with Some m => m | None => "application/octet-stream" end
   ++ ";base64," ++ toBase64 binary).

(** The server handling a sequence of requests one after the other: the
    final state and the responses, in order. *)
Definition serveAll (config : ModelUtils.AppConfig) (arrivals : list Arrival)
    (st : ServerState) : ServerState * list HttpResponse :=
  fold_left
    (fun acc arrival =>
       let '(st', response) :=
         requestListener Buffer readFile fileTypeFromBuffer toBase64 config
           (arrival_uuid arrival) (arrival_run arrival) (arrival_request arrival) (fst acc) in
       (st', (snd acc ++ [response])%list))
    arrivals (st, []).
End WithFileSystem.

End Vocabulary.

Module FlattenVocabulary.
Import VertexAI.

(** A text part: an element whose [type] is ["text"]; an element that is
    itself a string counts as text. *)
Definition isTextElement (c : PartElement) : bool :=
  match c with
  | StringElement _ => true
  | ObjectElement p => String.eqb (part_type p) "text"
  end.

(** What one element of the content array contributes to the flattened
    text, in the words of the specification: the text of a text part (no
    character when the part carries no text), the empty string for a part
    of any other type. *)
Definition segment (c : PartElement) : string :=
  if isTextElement c then
    match c with
    | StringElement s => s
    | ObjectElement p => match part_text p with Some t => t | None => "" end
    end
  else "".

(** The flattening as the specification words it: the texts of the text
    parts, separated by one space; other parts are left out. *)
Definition textsJoined (parts : list PartElement) : string :=
  String.concat " " (map segment (List.filter isTextElement parts)).

Definition isSystem (msg : ChatMessage) : bool := String.eqb (msg_role msg) "system".

End FlattenVocabulary.

Module StreamVocabulary.
Import VertexAI.







End StreamVocabulary.

(** * Sample data for the scenarios *)

Module Samples.
Import OpenAI HttpServer Vocabulary.

Definition readCall : ToolCall := mkToolCall "call_1" "function" (mkFunctionCall "Read" "{}").
Definition writeCall : ToolCall := mkToolCall "call_2" "function" (mkFunctionCall "Write" "{}").
Definition editCall : ToolCall := mkToolCall "call_3" "function" (mkFunctionCall "Edit" "{}").
Definition customCall : ToolCall := mkToolCall "call_4" "function" (mkFunctionCall "Deploy" "{}").


(** A file system holding one readable image. *)
Definition sampleReadFile (path : string) : Result string :=
  if String.eqb path "logo.png" then Ok "PNG"
  else Throw (ErrorObject ("ENOENT: no such file or directory, open '" ++ path ++ "'")).

Definition sampleFileType (binary : string) : option string :=
  if String.eqb binary "PNG" then Some "image/png" else None.

Definition sampleBase64 (binary : string) : string :=
  if String.eqb binary "PNG" then "UE5H" else "".

Definition sampleConfig : ModelUtils.AppConfig :=
  ModelUtils.mkConfig (Some "sk-test") None "o3" None.

(** The string made of U+00A0 (no-break space). *)
Definition noBreakSpace : string := String (ascii_of_nat 160) EmptyString.

Definition sampleHandle :=
  handleChatRequest string sampleReadFile sampleFileType sampleBase64 sampleConfig.

Definition emptyServer : ServerState := mkServerState ∅ [].

Definition firstAnswer : ChatCompletionMessageParam :=
  mkMessage assistant (ContentString "The entry point is cli.tsx.") None None.

Definition secondAnswer : ChatCompletionMessageParam :=
  mkMessage assistant (ContentString "Reading the file now.") (Some [readCall]) None.

(** A turn that emits one answer and returns. *)
Definition answers (agent : AgentLoop) (input : list ChatCompletionMessageParam) : AgentTurn :=
  mkAgentTurn [firstAnswer] None.

(** A turn that emits one item and then fails. *)
Definition failsAfterOneItem (agent : AgentLoop) (input : list ChatCompletionMessageParam)
  : AgentTurn :=
  mkAgentTurn [secondAnswer] (Some (ErrorObject "rate limit exceeded")).

Definition requestFor (id : option string) : ChatRequest :=
  mkChatRequest "Where is the entry point?" None (Some FULL_AUTO) id.

End Samples.

Module VertexSamples.
Import VertexAI.

Definition lookText : PartElement := ObjectElement (mkPart "text" (Some "Look at this:")).
Definition imagePart : PartElement := ObjectElement (mkPart "image_url" None).
Definition thanksText : PartElement := ObjectElement (mkPart "text" (Some "thanks")).

Definition helloChunk : VertexAIChunk :=
  mkChunk (Some [mkCandidate [mkContentPart (Some "Hello") None] None]).

Definition worldChunk : VertexAIChunk :=
  mkChunk (Some [mkCandidate [mkContentPart (Some ", world") None] (Some "STOP")]).

Definition sampleStream : Adapter :=
  createStreamAdapter [helloChunk; worldChunk] None "gemini-1.5-pro".

Definition retrievalTool : FunctionTool :=
  mkFunctionTool "retrieval" "search_docs" (Some "Search the docs") None.

Definition sampleGenerateContentStream (generativeModel : GenerativeModelParams)
    (request : GenerateRequest)
  : OpenAI.Result (list VertexAIChunk * option OpenAI.Thrown) :=
  OpenAI.Ok ([helloChunk; worldChunk], None).

Definition sampleGenerateContent (generativeModel : GenerativeModelParams)
    (request : GenerateRequest) : OpenAI.Result string :=
  OpenAI.Ok "Hello, world".

(** A backend whose stream breaks after two chunks. *)
Definition connectionReset : OpenAI.Thrown := OpenAI.ErrorObject "connection reset".


End VertexSamples.

(** * Properties *)

(** ** Strings *)

Section JsFacts.

Lemma append_cons (x : ascii) (a b : string) : String x a ++ b = String x (a ++ b).
Proof. reflexivity. Qed.

Lemma append_assoc (a b c : string) : (a ++ b) ++ c = a ++ (b ++ c).
Proof.
  induction a as [|x a IH]; [reflexivity|].
  now rewrite !append_cons, IH.
Qed.

Lemma append_nil_r (a : string) : a ++ "" = a.
Proof.
  induction a as [|x a IH]; [reflexivity|].
  now rewrite append_cons, IH.
Qed.

Lemma length_append (a b : string) :
  String.length (a ++ b) = String.length a + String.length b.
Proof.
  induction a as [|x a IH]; [reflexivity|].
  rewrite append_cons. simpl. now rewrite IH.
Qed.

Lemma fold_join_shift (sep : string) (ys : list (option string)) (a b : string) :
  fold_left (fun acc y => acc ++ sep ++ Js.str_of y) ys (a ++ b)
  = a ++ fold_left (fun acc y => acc ++ sep ++ Js.str_of y) ys b.
Proof.
  revert b. induction ys as [|y ys IH]; intros b; cbn [fold_left]; [reflexivity|].
  rewrite append_assoc. apply IH.
Qed.

(** The left-to-right loop of [join] agrees with the recursive
    [String.concat] on the elements' string forms. *)
Lemma join_opt_concat (sep : string) (xs : list (option string)) :
  Js.join_opt sep xs = String.concat sep (map Js.str_of xs).
Proof.
  destruct xs as [|x xs]; [reflexivity|]. simpl.
  revert x. induction xs as [|y ys IH]; intros x; simpl; [reflexivity|].
  rewrite fold_join_shift. f_equal.
  specialize (IH y). simpl in IH.
  rewrite <- IH. clear IH.
  change (sep ++ Js.str_of y) with ("" ++ (sep ++ Js.str_of y)) at 1.
  rewrite fold_join_shift. simpl.
  rewrite <- (fold_join_shift sep ys sep (Js.str_of y)). reflexivity.
Qed.

Lemma join_concat (sep : string) (xs : list string) :
  Js.join sep xs = String.concat sep xs.
Proof.
  unfold Js.join. rewrite join_opt_concat, map_map. simpl. now rewrite map_id.
Qed.





(** On the code units a [string] holds, the white space of [trim] is TAB,
    LF, VT, FF, CR, SP and NBSP. *)
Lemma isWhiteSpace_units (c : ascii) :
  Js.isWhiteSpace c = existsb (Nat.eqb (nat_of_ascii c)) [9; 10; 11; 12; 13; 32; 160].
Proof. destruct c as [[] [] [] [] [] [] [] []]; vm_compute; reflexivity. Qed.

Lemma isWhiteSpaceUnit_below_256 (u : N) :
  (u < 256)%N ->
  Js.isWhiteSpaceUnit u = true <-> In u [9; 10; 11; 12; 13; 32; 160]%N.
Proof.
  intros Hu. unfold Js.isWhiteSpaceUnit. simpl.
  rewrite !orb_true_iff, !andb_true_iff, !N.leb_le, !N.eqb_eq. lia.
Qed.

Lemma trimStart_white (pre s : string) :
  forallb Js.isWhiteSpace (list_ascii_of_string pre) = true ->
  Js.trimStart (pre ++ s) = Js.trimStart s.
Proof.
  induction pre as [|c pre IH]; [reflexivity|]. simpl.
  intros [Hc Hpre]%andb_true_iff. rewrite Hc. auto.
Qed.

Lemma trimEnd_all_white (post : string) :
  forallb Js.isWhiteSpace (list_ascii_of_string post) = true -> Js.trimEnd post = "".
Proof.
  induction post as [|c post IH]; [reflexivity|]. simpl.
  intros [Hc Hpost]%andb_true_iff. rewrite (IH Hpost), Hc. reflexivity.
Qed.

Lemma trimEnd_white (s post : string) :
  forallb Js.isWhiteSpace (list_ascii_of_string post) = true ->
  Js.trimEnd (s ++ post) = Js.trimEnd s.
Proof.
  intros Hpost. induction s as [|c s IH]; [now apply trimEnd_all_white|].
  rewrite append_cons. simpl. now rewrite IH.
Qed.

Lemma trimStart_append (s post : string) :
  Js.trimStart (s ++ post) = Js.trimStart s ++ post
  \/ (Js.trimStart s = "" /\ Js.trimStart (s ++ post) = Js.trimStart post).
Proof.
  induction s as [|c s IH]; [right; auto|].
  rewrite append_cons. simpl. destruct (Js.isWhiteSpace c); [exact IH | left; reflexivity].
Qed.

(** White space around a string does not change what [trim] gives. *)
Lemma trim_padding (pre s post : string) :
  forallb Js.isWhiteSpace (list_ascii_of_string pre) = true ->
  forallb Js.isWhiteSpace (list_ascii_of_string post) = true ->
  Js.trim (pre ++ s ++ post) = Js.trim s.
Proof.
  intros Hpre Hpost. unfold Js.trim. rewrite (trimStart_white _ _ Hpre).
  destruct (trimStart_append s post) as [->|[-> ->]].
  - now apply trimEnd_white.
  - assert (Js.trimStart post = "") as ->; [|reflexivity].
    clear -Hpost. induction post as [|c post IH]; [reflexivity|]. simpl in *.
    apply andb_true_iff in Hpost as [-> Hpost]. auto.
Qed.


End JsFacts.

(** ** The capability filter *)

Section FilterFacts.
Import OpenAI HttpServer Vocabulary.

Lemma read_write_disjoint : READ_ONLY_TOOLS ## WRITE_TOOLS.
Proof. apply (bool_decide_unpack _). vm_compute. exact I. Qed.

Lemma isReadOnly_spec (tc : ToolCall) :
  isReadOnlyToolCall tc = true <-> toolName tc ∈ READ_ONLY_TOOLS.
Proof. unfold isReadOnlyToolCall. cbv zeta. apply bool_decide_eq_true. Qed.

Lemma isWrite_spec (tc : ToolCall) :
  isWriteToolCall tc = true <-> toolName tc ∈ WRITE_TOOLS.
Proof. unfold isWriteToolCall. cbv zeta. apply bool_decide_eq_true. Qed.

Lemma read_not_write (tc : ToolCall) :
  isReadOnlyToolCall tc = true -> isWriteToolCall tc = false.
Proof.
  intros Hr%isReadOnly_spec. apply not_true_is_false. intros Hw%isWrite_spec.
  exact (read_write_disjoint _ Hr Hw).
Qed.

Lemma filter_nonempty {A} (f : A -> bool) (l : list A) :
  Nat.ltb 0 (List.length (List.filter f l)) = true <-> exists x, In x l /\ f x = true.
Proof.
  rewrite Nat.ltb_lt. split.
  - destruct (List.filter f l) as [|x xs] eqn:E; simpl; [lia|]. intros _.
    exists x. apply filter_In. rewrite E. now left.
  - intros (x & Hin & Hf).
    assert (Hx : In x (List.filter f l)) by (apply filter_In; auto).
    destruct (List.filter f l); [destruct Hx | simpl; lia].
Qed.

Lemma filter_empty {A} (f : A -> bool) (l : list A) :
  Nat.ltb 0 (List.length (List.filter f l)) = false <-> forall x, In x l -> f x = false.
Proof.
  split.
  - intros H x Hin. destruct (f x) eqn:Hf; [|reflexivity].
    assert (Nat.ltb 0 (List.length (List.filter f l)) = true)
      by (apply filter_nonempty; eauto).
    congruence.
  - intros H. apply not_true_is_false. intros (x & Hin & Hf)%filter_nonempty.
    rewrite (H x Hin) in Hf. discriminate.
Qed.

Lemma filter_all {A} (f : A -> bool) (l : list A) :
  (forall x, In x l -> f x = true) -> List.filter f l = l.
Proof.
  induction l as [|x l IH]; intros H; simpl; [reflexivity|].
  rewrite (H x (or_introl eq_refl)). f_equal. apply IH. intros y Hy. apply H. now right.
Qed.

(** A message that carries no write-capability call leaves the filter as it
    entered it. *)
Lemma filter_no_write_passthrough (item : ChatCompletionMessageParam) :
  (forall tc, In tc (toolCallsOf item) -> isWriteToolCall tc = false) ->
  filterMessageForReadOnly item = Some item.
Proof.
  intros Hnw. unfold filterMessageForReadOnly, filterAssistantToolCalls.
  unfold toolCallsOf in Hnw.
  destruct (isAssistant (role item)), (tool_calls item) as [calls|];
    cbv zeta; try (destruct (isTool _ && _); reflexivity).
  apply filter_empty in Hnw. rewrite Hnw.
  destruct (isTool _ && _); reflexivity.
Qed.

(** The filter never answers [null]. *)
Lemma filter_total (item : ChatCompletionMessageParam) :
  exists out, filterMessageForReadOnly item = Some out.
Proof.
  unfold filterMessageForReadOnly.
  destruct (filterAssistantToolCalls item); [eauto|].
  destruct (isTool _ && _); eauto.
Qed.

(** The shape of the rewritten message when reads and writes are mixed. *)
Lemma filter_mixed_eq (item : ChatCompletionMessageParam) (calls : list ToolCall) :
  role item = assistant ->
  tool_calls item = Some calls ->
  (exists tc, In tc calls /\ isWriteToolCall tc = true) ->
  (exists tc, In tc calls /\ isReadOnlyToolCall tc = true) ->
  filterMessageForReadOnly item =
    Some {| role := assistant;
            content :=
              ContentString
                ((match content item with
                  | ContentString s => s ++ Js.nl ++ Js.nl
                  | _ => ""
                  end)
                 ++ friendlyMessage
                      (String.concat ", " (map toolName (List.filter isWriteToolCall calls))));
            tool_calls := Some (List.filter isReadOnlyToolCall calls);
            tool_call_id := tool_call_id item |}.
Proof.
  intros Hrole Hcalls Hw%filter_nonempty Hr%filter_nonempty.
  unfold filterMessageForReadOnly, filterAssistantToolCalls.
  rewrite Hrole, Hcalls. cbv zeta. simpl isAssistant. cbv iota.
  rewrite Hw, Hr, join_concat. reflexivity.
Qed.

(** The shape of the rewritten message when a write call is present and no
    read call is. *)
Lemma filter_no_read_eq (item : ChatCompletionMessageParam) (calls : list ToolCall) :
  role item = assistant ->
  tool_calls item = Some calls ->
  (exists tc, In tc calls /\ isWriteToolCall tc = true) ->
  (forall tc, In tc calls -> isReadOnlyToolCall tc = false) ->
  filterMessageForReadOnly item =
    Some {| role := assistant;
            content :=
              ContentString
                (friendlyMessage
                   (String.concat ", " (map toolName (List.filter isWriteToolCall calls))));
            tool_calls := None;
            tool_call_id := tool_call_id item |}.
Proof.
  intros Hrole Hcalls Hw%filter_nonempty Hr%filter_empty.
  unfold filterMessageForReadOnly, filterAssistantToolCalls.
  rewrite Hrole, Hcalls. cbv zeta. simpl isAssistant. cbv iota.
  rewrite Hw, Hr, join_concat. reflexivity.
Qed.


End FilterFacts.

Section FilterClaims.
Import OpenAI HttpServer Vocabulary Samples.



(** C3 (as stated, refuted).  A message whose only tool call is a
    write-capability call and whose text is ["Working on it."] is rewritten
    to a message without tool calls whose content is the explanatory note
    alone: the original text is not a prefix of it, so the note has not been
    appended to the original text. *)
Lemma filter_write_only_drops_original_text :
  let item :=
    mkMessage assistant (ContentString "Working on it.") (Some [writeCall]) None in
  forallb isWriteToolCall [writeCall] = true /\
  filterMessageForReadOnly item =
    Some (mkMessage assistant (ContentString (friendlyMessage "Write")) None None) /\
  ~ (exists out rest,
        filterMessageForReadOnly item = Some out /\
        content out = ContentString ("Working on it." ++ rest)).
Proof.
  cbv zeta. split; [vm_compute; reflexivity|].
  split; [vm_compute; reflexivity|].
  intros (out & rest & Hout & Hcontent).
  vm_compute in Hout. injection Hout as <-. cbn [content] in Hcontent.
  discriminate Hcontent.
Qed.

(** C3 (amended).  An assistant message whose tool calls are all
    write-capability calls, and which has at least one, is rewritten to a
    message with no [tool_calls] field whose text content is exactly the
    explanatory note naming those tools; whatever text the message had is
    replaced. *)
Theorem filter_write_only_replaces_content
    (item : ChatCompletionMessageParam) (calls : list ToolCall) :
  role item = assistant ->
  tool_calls item = Some calls ->
  calls <> [] ->
  (forall tc, In tc calls -> isWriteToolCall tc = true) ->
  exists out,
    filterMessageForReadOnly item = Some out /\
    tool_calls out = None /\
    content out = ContentString (friendlyMessage (String.concat ", " (map toolName calls))) /\
    role out = assistant /\
    tool_call_id out = tool_call_id item.
Proof.
  intros Hrole Hcalls Hne Hall.
  assert (Hw : exists tc, In tc calls /\ isWriteToolCall tc = true).
  { destruct calls as [|tc rest]; [contradiction|].
    exists tc. split; [now left | apply Hall; now left]. }
  assert (Hr : forall tc, In tc calls -> isReadOnlyToolCall tc = false).
  { intros tc Hin. destruct (isReadOnlyToolCall tc) eqn:E; [|reflexivity].
    apply read_not_write in E. rewrite (Hall tc Hin) in E. discriminate. }
  rewrite (filter_no_read_eq item calls Hrole Hcalls Hw Hr).
  rewrite (filter_all _ _ Hall).
  eexists. repeat split.
Qed.

Lemma filter_write_only_witness :
  exists out,
    filterMessageForReadOnly
      (mkMessage assistant (ContentString "Working on it.") (Some [writeCall; editCall]) None)
      = Some out /\
    tool_calls out = None /\
    content out =
      ContentString
        (friendlyMessage (String.concat ", " (map toolName [writeCall; editCall]))) /\
    role out = assistant /\
    tool_call_id out = None.
Proof.
  apply (filter_write_only_replaces_content
           (mkMessage assistant (ContentString "Working on it.")
              (Some [writeCall; editCall]) None)
           [writeCall; editCall]).
  - reflexivity.
  - reflexivity.
  - discriminate.
  - intros tc [<-|[<-|[]]]; vm_compute; reflexivity.
Defined.

(** C8.  Filtering is idempotent: the filter always answers with a message,
    and filtering that message again returns it unchanged.  Moreover a
    message that carries no write-capability tool call (in particular one
    with no tool calls at all) passes through unchanged. *)
Theorem filter_idempotent (item : ChatCompletionMessageParam) :
  exists out,
    filterMessageForReadOnly item = Some out /\
    filterMessageForReadOnly out = Some out /\
    (toolCallsOf item = [] -> out = item) /\
    ((forall tc, In tc (toolCallsOf item) -> isWriteToolCall tc = false) -> out = item).
Proof.
  assert (Hpass : forall m,
             (forall tc, In tc (toolCallsOf m) -> isWriteToolCall tc = false) ->
             exists out,
               filterMessageForReadOnly m = Some out /\
               filterMessageForReadOnly out = Some out /\
               (toolCallsOf m = [] -> out = m) /\
               ((forall tc, In tc (toolCallsOf m) -> isWriteToolCall tc = false) -> out = m)).
  { intros m Hm. exists m. pose proof (filter_no_write_passthrough m Hm). auto. }
  destruct (isAssistant (role item)) eqn:Hrole.
  - assert (Hr' : role item = assistant) by (destruct (role item); now try discriminate).
    destruct (tool_calls item) as [calls|] eqn:Hcalls.
    + destruct (Nat.ltb 0 (List.length (List.filter isWriteToolCall calls))) eqn:Hw.
      * apply filter_nonempty in Hw.
        assert (Hne : toolCallsOf item <> []).
        { unfold toolCallsOf. rewrite Hcalls. destruct Hw as (tc & Hin & _).
          intros ->. destruct Hin. }
        assert (Hnot : ~ (forall tc, In tc (toolCallsOf item) -> isWriteToolCall tc = false)).
        { unfold toolCallsOf. rewrite Hcalls. destruct Hw as (tc & Hin & Htc).
          intros H. rewrite (H tc Hin) in Htc. discriminate. }
        destruct (Nat.ltb 0 (List.length (List.filter isReadOnlyToolCall calls))) eqn:Hr.
        -- apply filter_nonempty in Hr.
           rewrite (filter_mixed_eq item calls Hr' Hcalls Hw Hr).
           eexists. split; [reflexivity|].
           split; [|split; intros; contradiction].
           apply filter_no_write_passthrough. unfold toolCallsOf. cbn [tool_calls].
           intros tc [_ Htc]%filter_In. now apply read_not_write.
        -- pose proof (proj1 (filter_empty _ _) Hr) as Hnr.
           rewrite (filter_no_read_eq item calls Hr' Hcalls Hw Hnr).
           eexists. split; [reflexivity|].
           split; [|split; intros; contradiction].
           apply filter_no_write_passthrough. intros tc [].
      * apply Hpass. unfold toolCallsOf. rewrite Hcalls. now apply filter_empty.
    + apply Hpass. unfold toolCallsOf. rewrite Hcalls. intros tc [].
  - exists item.
    assert (Hid : forall m, isAssistant (role m) = false ->
                            filterMessageForReadOnly m = Some m).
    { intros m Hm. unfold filterMessageForReadOnly, filterAssistantToolCalls.
      rewrite Hm. destruct (isTool _ && _); reflexivity. }
    rewrite (Hid item Hrole). auto.
Qed.

(** C10.  In an assistant message that carries at least one
    write-capability call, the calls that survive are exactly those whose
    name is in the read set, so a call whose name is in neither set is
    dropped; whereas any message without a write-capability call, even one
    carrying that same call, passes through untouched. *)
Theorem filter_drops_unlisted_tool_beside_write
    (item : ChatCompletionMessageParam) (calls : list ToolCall) (tc : ToolCall) :
  role item = assistant ->
  tool_calls item = Some calls ->
  (exists w, In w calls /\ isWriteToolCall w = true) ->
  In tc calls ->
  isReadOnlyToolCall tc = false ->
  isWriteToolCall tc = false ->
  (exists out,
     filterMessageForReadOnly item = Some out /\
     ~ In tc (toolCallsOf out) /\
     (forall k, In k (toolCallsOf out) <-> In k calls /\ isReadOnlyToolCall k = true)) /\
  (forall other,
     In tc (toolCallsOf other) ->
     (forall k, In k (toolCallsOf other) -> isWriteToolCall k = false) ->
     filterMessageForReadOnly other = Some other).
Proof.
  intros Hrole Hcalls Hw Hin Hnr Hnw. split.
  - destruct (Nat.ltb 0 (List.length (List.filter isReadOnlyToolCall calls))) eqn:Hr.
    + apply filter_nonempty in Hr.
      rewrite (filter_mixed_eq item calls Hrole Hcalls Hw Hr).
      eexists. split; [reflexivity|]. unfold toolCallsOf. cbn [tool_calls].
      split; [|intros k; apply filter_In].
      intros [_ E]%filter_In. congruence.
    + pose proof (proj1 (filter_empty _ _) Hr) as Hnone.
      rewrite (filter_no_read_eq item calls Hrole Hcalls Hw Hnone).
      eexists. split; [reflexivity|]. unfold toolCallsOf. cbn [tool_calls].
      split; [intros []|].
      intros k. split; [intros []|]. intros [Hk E]. rewrite (Hnone k Hk) in E. discriminate.
  - intros other _ Hother. now apply filter_no_write_passthrough.
Qed.

Lemma filter_drops_unlisted_witness :
  (exists out,
     filterMessageForReadOnly
       (mkMessage assistant (ContentString "On it.") (Some [readCall; customCall; writeCall]) None)
       = Some out /\
     ~ In customCall (toolCallsOf out) /\
     (forall k, In k (toolCallsOf out) <->
                In k [readCall; customCall; writeCall] /\ isReadOnlyToolCall k = true)) /\
  (forall other,
     In customCall (toolCallsOf other) ->
     (forall k, In k (toolCallsOf other) -> isWriteToolCall k = false) ->
     filterMessageForReadOnly other = Some other).
Proof.
  apply (filter_drops_unlisted_tool_beside_write
           (mkMessage assistant (ContentString "On it.")
              (Some [readCall; customCall; writeCall]) None)
           [readCall; customCall; writeCall] customCall).
  - reflexivity.
  - reflexivity.
  - exists writeCall. split; [simpl; auto | vm_compute; reflexivity].
  - simpl; auto.
  - vm_compute; reflexivity.
  - vm_compute; reflexivity.
Defined.

(** Both situations on concrete messages: beside a write call the
    unlisted call disappears, without one it stays. *)
Example unlisted_call_beside_write :
  filterMessageForReadOnly
    (mkMessage assistant (ContentString "On it.") (Some [readCall; customCall; writeCall]) None)
  = Some (mkMessage assistant
            (ContentString ("On it." ++ Js.nl ++ Js.nl ++ friendlyMessage "Write"))
            (Some [readCall]) None).
Proof. vm_compute. reflexivity. Qed.

Example unlisted_call_without_write :
  filterMessageForReadOnly
    (mkMessage assistant (ContentString "On it.") (Some [readCall; customCall]) None)
  = Some (mkMessage assistant (ContentString "On it.") (Some [readCall; customCall]) None).
Proof. vm_compute. reflexivity. Qed.

(** Messages the filter does not rewrite: a message whose tool calls are all
    read-capability calls, and a tool-result message, are returned as they
    are. *)
Theorem filter_passes_read_only_and_tool_results (item : ChatCompletionMessageParam) :
  ((forall tc, In tc (toolCallsOf item) -> isReadOnlyToolCall tc = true) ->
   filterMessageForReadOnly item = Some item) /\
  (role item = tool -> filterMessageForReadOnly item = Some item).
Proof.
  split.
  - intros Hall. apply filter_no_write_passthrough.
    intros tc Htc. apply read_not_write, Hall, Htc.
  - intros Hrole. unfold filterMessageForReadOnly, filterAssistantToolCalls.
    rewrite Hrole. cbn [isAssistant isTool]. destruct (_ && _); reflexivity.
Qed.

Lemma filter_passes_witness :
  filterMessageForReadOnly
    (mkMessage assistant (ContentString "Reading.") (Some [readCall]) None)
  = Some (mkMessage assistant (ContentString "Reading.") (Some [readCall]) None) /\
  filterMessageForReadOnly
    (mkMessage tool (ContentString "file contents") None (Some "call_1"))
  = Some (mkMessage tool (ContentString "file contents") None (Some "call_1")).
Proof.
  split.
  - apply (proj1 (filter_passes_read_only_and_tool_results
                    (mkMessage assistant (ContentString "Reading.") (Some [readCall]) None))).
    intros tc [<-|[]]. vm_compute. reflexivity.
  - apply (proj2 (filter_passes_read_only_and_tool_results
                    (mkMessage tool (ContentString "file contents") None (Some "call_1")))).
    reflexivity.
Defined.

End FilterClaims.

(** ** The session gateway *)

Section GatewayFacts.
Import OpenAI HttpServer Vocabulary.

Variable Buffer : Type.
Variable readFile : string -> Result Buffer.
Variable fileTypeFromBuffer : Buffer -> option string.
Variable toBase64 : Buffer -> string.

Local Abbreviation handle :=
  (handleChatRequest Buffer readFile fileTypeFromBuffer toBase64).

Lemma onItem_length target item arrs :
  List.length (onItem target item arrs) = List.length arrs.
Proof.
  unfold onItem. destruct (filterMessageForReadOnly item); [|reflexivity].
  apply length_alter.
Qed.

Lemma fold_onItem_length target items arrs :
  List.length (fold_left (fun a item => onItem target item a) items arrs)
  = List.length arrs.
Proof.
  revert arrs. induction items as [|item items IH]; intros arrs; simpl; [reflexivity|].
  now rewrite IH, onItem_length.
Qed.

Lemma alter_middle {A} (f : A -> A) (pre post : list A) (x : A) :
  alter f (List.length pre) (pre ++ x :: post)%list = (pre ++ f x :: post)%list.
Proof.
  replace (List.length pre) with (List.length pre + 0) by lia.
  now rewrite alter_app_r.
Qed.

(** Pushing through a callback whose array is the last one allocated. *)
Lemma fold_onItem_last items pre acc :
  fold_left (fun a item => onItem (List.length pre) item a) items (pre ++ [acc])%list
  = (pre ++ [(acc ++ filtered items)%list])%list.
Proof.
  revert acc. induction items as [|item items IH]; intros acc; simpl.
  - unfold filtered. simpl. now rewrite app_nil_r.
  - unfold onItem at 2. unfold filtered. simpl.
    destruct (filterMessageForReadOnly item) as [f|].
    + rewrite alter_middle, IH. unfold filtered. now rewrite <- app_assoc.
    + apply IH.
Qed.

(** Pushing through a callback whose array is an older one leaves every
    other array as it was. *)
Lemma fold_onItem_other target items arrs k :
  k <> target ->
  fold_left (fun a item => onItem target item a) items arrs !! k = arrs !! k.
Proof.
  intros Hk. revert arrs. induction items as [|item items IH]; intros arrs; simpl; [reflexivity|].
  rewrite IH. unfold onItem. destruct (filterMessageForReadOnly item); [|reflexivity].
  apply list_lookup_alter_ne. auto.
Qed.

Lemma servedUnder_eq req uuid id :
  servedUnder req uuid id ->
  match req_sessionId req with
  | Some s => if String.eqb s "" then uuid else s
  | None => uuid
  end = id.
Proof.
  intros [[-> ->]|[[-> ->]|[-> Hne]]]; try reflexivity.
  destruct (String.eqb_spec id ""); [contradiction | reflexivity].
Qed.

(** A request served under an identifier that is not registered: the
    complete effect of the handler. *)
Lemma handle_new_session config uuid run req st id :
  servedUnder req uuid id ->
  activeSessions st !! id = None ->
  handle config uuid run req st =
    let sink := List.length (arrays st) in
    let '(msgs, failure) := turnOutcome Buffer readFile fileTypeFromBuffer toBase64 config run req sink in
    ({| activeSessions := <[id := newAgent config sink]> (activeSessions st);
        arrays := (arrays st ++ [msgs])%list |},
     {| sessionId := id;
        messages := msgs;
        status := match failure with Some _ => error | None => completed end;
        error_message := errorMessageOf <$> failure |}).
Proof.
  intros Hid Hnew. unfold handleChatRequest, turnOutcome.
  rewrite (servedUnder_eq _ _ _ Hid), Hnew. cbv zeta. fold (newAgent config (List.length (arrays st))).
  destruct (InputUtils.createInputItem _ _ _ _ _ _) as [inputItem|e].
  - cbn [agent_onItem newAgent]. rewrite fold_onItem_last.
    rewrite list_lookup_middle by reflexivity. reflexivity.
  - rewrite list_lookup_middle by reflexivity. reflexivity.
Qed.

(** A request served under a registered identifier: the agent found is the
    one that runs, its items go to the array its callback captured when it
    was constructed, and the response is built from the request's own,
    untouched array. *)
Lemma handle_known_session config uuid run req st id agent :
  servedUnder req uuid id ->
  activeSessions st !! id = Some agent ->
  agent_onItem agent < List.length (arrays st) ->
  exists arrs failure,
    handle config uuid run req st =
      ({| activeSessions := activeSessions st; arrays := arrs |},
       {| sessionId := id;
          messages := [];
          status := match failure with Some _ => error | None => completed end;
          error_message := errorMessageOf <$> failure |}) /\
    List.length arrs = S (List.length (arrays st)) /\
    (forall inputItem,
        InputUtils.createInputItem Buffer readFile fileTypeFromBuffer toBase64
          (prompt req) (match imagePaths req with Some l => l | None => [] end)
        = Ok inputItem ->
        failure = thrown (run agent [inputItem]) /\
        arrs !! agent_onItem agent =
          (fun a => (a ++ filtered (emitted (run agent [inputItem])))%list)
            <$> arrays st !! agent_onItem agent).
Proof.
  intros Hid Hreg Hsink. unfold handleChatRequest.
  rewrite (servedUnder_eq _ _ _ Hid), Hreg. cbv zeta.
  destruct (InputUtils.createInputItem _ _ _ _ _ _) as [inputItem|e].
  - eexists _, (thrown (run agent [inputItem])). split; [|split].
    + rewrite fold_onItem_other by lia.
      rewrite list_lookup_middle by reflexivity. reflexivity.
    + rewrite fold_onItem_length, length_app. simpl. lia.
    + intros i [= <-]. split; [reflexivity|].
      destruct (lookup_lt_is_Some_2 _ _ Hsink) as [old Hold].
      rewrite Hold. simpl.
      apply list_elem_of_split_length in Hold as (pre & post & Harr & Hlen).
      rewrite Harr, Hlen. rewrite <- app_assoc. simpl.
      clear. generalize (emitted (run agent [inputItem])). intros items.
      revert old. induction items as [|item items IH]; intros old; simpl.
      * rewrite list_lookup_middle by reflexivity. unfold filtered. simpl.
        now rewrite app_nil_r.
      * unfold onItem at 2. unfold filtered. simpl.
        destruct (filterMessageForReadOnly item) as [f|]; [|apply IH].
        rewrite alter_middle, IH. unfold filtered. now rewrite <- app_assoc.
  - exists (arrays st ++ [[]])%list, (Some e). split; [|split].
    + rewrite list_lookup_middle by reflexivity. reflexivity.
    + rewrite length_app. simpl. lia.
    + intros i [=].
Qed.

(** C4 (amended).  A request is served under the identifier [randomUUID()]
    gives when it names no session (or an empty one), and under the caller's
    own identifier when it names one.  When no session is registered under
    that identifier, the handler constructs a new agent bound to the fixed
    [SUGGEST] approval policy (whatever [approvalMode] the request carries)
    whose command confirmation always denies, registers it under that
    identifier, leaves every other registration alone, and returns the
    identifier in the response. *)
Theorem chat_unregistered_id_registers_read_only_agent
    (config : ModelUtils.AppConfig) (uuid : string)
    (run : AgentLoop -> list ChatCompletionMessageParam -> AgentTurn)
    (req : ChatRequest) (st : ServerState) (id : string) :
  servedUnder req uuid id ->
  activeSessions st !! id = None ->
  exists agent,
    sessionId (snd (handle config uuid run req st)) = id /\
    activeSessions (fst (handle config uuid run req st)) !! id = Some agent /\
    agent_approvalPolicy agent = SUGGEST /\
    agent_getCommandConfirmation agent = NO_CONTINUE /\
    agent_onItem agent = List.length (arrays st) /\
    (forall other, other <> id ->
        activeSessions (fst (handle config uuid run req st)) !! other
        = activeSessions st !! other).
Proof.
  intros Hid Hnew. rewrite (handle_new_session _ _ _ _ _ _ Hid Hnew). cbv zeta.
  destruct (turnOutcome _ _ _ _ _ _ _ _) as [msgs failure]. cbn [fst snd activeSessions sessionId].
  exists (newAgent config (List.length (arrays st))).
  split; [reflexivity|]. split; [apply lookup_insert_eq|].
  repeat (split; [reflexivity|]).
  intros other Hne. now apply lookup_insert_ne.
Qed.

(** What holds on every request whose turn fails: the failure is
    caught, the response has status [error] and carries the message of the
    thrown error, and the session is registered afterwards; a session that
    was registered before keeps the very same agent. *)
Lemma chat_failure_is_reported_and_session_kept
    (config : ModelUtils.AppConfig) (uuid : string)
    (run : AgentLoop -> list ChatCompletionMessageParam -> AgentTurn)
    (req : ChatRequest) (st : ServerState) (id : string) (inputItem : ChatCompletionMessageParam)
    (e : Thrown) :
  servedUnder req uuid id ->
  sinksAllocated st ->
  InputUtils.createInputItem Buffer readFile fileTypeFromBuffer toBase64
    (prompt req) (match imagePaths req with Some l => l | None => [] end) = Ok inputItem ->
  (forall agent, thrown (run agent [inputItem]) = Some e) ->
  status (snd (handle config uuid run req st)) = error /\
  error_message (snd (handle config uuid run req st)) = Some (errorMessageOf e) /\
  sessionId (snd (handle config uuid run req st)) = id /\
  is_Some (activeSessions (fst (handle config uuid run req st)) !! id) /\
  (forall agent, activeSessions st !! id = Some agent ->
      activeSessions (fst (handle config uuid run req st)) !! id = Some agent).
Proof.
  intros Hid Hwf Hinput Hthrow.
  destruct (activeSessions st !! id) as [agent|] eqn:Hreg.
  - destruct (handle_known_session config uuid run req st id agent Hid Hreg (Hwf _ _ Hreg))
      as (arrs & failure & -> & _ & Hrun).
    destruct (Hrun _ Hinput) as [-> _]. rewrite Hthrow.
    cbn [fst snd status error_message sessionId activeSessions]. rewrite Hreg.
    repeat split; eauto.
  - rewrite (handle_new_session _ _ _ _ _ _ Hid Hreg). cbv zeta.
    unfold turnOutcome. rewrite Hinput. cbv zeta. rewrite Hthrow.
    cbn [fst snd status error_message sessionId activeSessions].
    rewrite lookup_insert_eq. repeat split; eauto. intros agent [=].
Qed.

(** For a request that constructs its agent, the response carries exactly
    the filtered items emitted before the failure, in emission order. *)
Lemma chat_new_session_failure_returns_filtered_items
    (config : ModelUtils.AppConfig) (uuid : string)
    (run : AgentLoop -> list ChatCompletionMessageParam -> AgentTurn)
    (req : ChatRequest) (st : ServerState) (id : string) (inputItem : ChatCompletionMessageParam) :
  servedUnder req uuid id ->
  activeSessions st !! id = None ->
  InputUtils.createInputItem Buffer readFile fileTypeFromBuffer toBase64
    (prompt req) (match imagePaths req with Some l => l | None => [] end) = Ok inputItem ->
  messages (snd (handle config uuid run req st))
  = filtered (emitted (run (newAgent config (List.length (arrays st))) [inputItem])).
Proof.
  intros Hid Hnew Hinput. rewrite (handle_new_session _ _ _ _ _ _ Hid Hnew). cbv zeta.
  unfold turnOutcome. rewrite Hinput. reflexivity.
Qed.

(** For a request that reuses a registered agent, the response carries no
    message at all, whatever the agent emitted: the agent's callback still
    pushes onto the array of the request that constructed it. *)
Lemma chat_reused_session_returns_no_items
    (config : ModelUtils.AppConfig) (uuid : string)
    (run : AgentLoop -> list ChatCompletionMessageParam -> AgentTurn)
    (req : ChatRequest) (st : ServerState) (id : string) (agent : AgentLoop) :
  servedUnder req uuid id ->
  sinksAllocated st ->
  activeSessions st !! id = Some agent ->
  messages (snd (handle config uuid run req st)) = [].
Proof.
  intros Hid Hwf Hreg.
  destruct (handle_known_session config uuid run req st id agent Hid Hreg (Hwf _ _ Hreg))
    as (arrs & failure & -> & _). reflexivity.
Qed.

(** The handler keeps every callback's array allocated. *)
Lemma handle_sinksAllocated
    (config : ModelUtils.AppConfig) (uuid : string)
    (run : AgentLoop -> list ChatCompletionMessageParam -> AgentTurn)
    (req : ChatRequest) (st : ServerState) :
  sinksAllocated st -> sinksAllocated (fst (handle config uuid run req st)).
Proof.
  intros Hwf.
  assert (Hid : exists id, servedUnder req uuid id).
  { unfold servedUnder. destruct (req_sessionId req) as [s|]; [|eauto].
    destruct (String.eqb_spec s ""); subst; eauto 6. }
  destruct Hid as [id Hid].
  destruct (activeSessions st !! id) as [agent|] eqn:Hreg.
  - destruct (handle_known_session config uuid run req st id agent Hid Hreg (Hwf _ _ Hreg))
      as (arrs & failure & -> & Hlen & _).
    intros k a. cbn [fst activeSessions arrays]. intros Hk%Hwf. lia.
  - rewrite (handle_new_session _ _ _ _ _ _ Hid Hreg). cbv zeta.
    destruct (turnOutcome _ _ _ _ _ _ _ _) as [msgs failure].
    intros k a. cbn [fst activeSessions arrays]. rewrite length_app. simpl.
    destruct (decide (id = k)) as [<-|Hne].
    + rewrite lookup_insert_eq. intros [= <-]. simpl. lia.
    + rewrite lookup_insert_ne by exact Hne. intros Hk%Hwf. lia.
Qed.

(** A request for a registered session leaves the registry as it was and
    is answered under that session's identifier.  When the input item can be
    built, the agent found in the registry is the one that runs (the
    outcome depends on [run] only through the turn of that agent): the
    status is [error] exactly when that turn throws.  When an image file
    cannot be read, no agent is run and the request fails with the read
    error. *)
Theorem chat_registered_id_reuses_agent
    (config : ModelUtils.AppConfig) (uuid : string)
    (run : AgentLoop -> list ChatCompletionMessageParam -> AgentTurn)
    (req : ChatRequest) (st : ServerState) (id : string) (agent : AgentLoop) :
  servedUnder req uuid id ->
  sinksAllocated st ->
  activeSessions st !! id = Some agent ->
  activeSessions (fst (handle config uuid run req st)) = activeSessions st /\
  sessionId (snd (handle config uuid run req st)) = id /\
  (forall inputItem,
      InputUtils.createInputItem Buffer readFile fileTypeFromBuffer toBase64
        (prompt req) (match imagePaths req with Some l => l | None => [] end)
      = Ok inputItem ->
      status (snd (handle config uuid run req st))
      = match thrown (run agent [inputItem]) with Some _ => error | None => completed end /\
      error_message (snd (handle config uuid run req st))
      = errorMessageOf <$> thrown (run agent [inputItem]) /\
      (forall run', run' agent [inputItem] = run agent [inputItem] ->
         handle config uuid run' req st = handle config uuid run req st)) /\
  (forall e,
      InputUtils.createInputItem Buffer readFile fileTypeFromBuffer toBase64
        (prompt req) (match imagePaths req with Some l => l | None => [] end)
      = Throw e ->
      status (snd (handle config uuid run req st)) = error /\
      error_message (snd (handle config uuid run req st)) = Some (errorMessageOf e) /\
      (forall run', handle config uuid run' req st = handle config uuid run req st)).
Proof.
  intros Hid Hwf Hreg.
  destruct (handle_known_session config uuid run req st id agent Hid Hreg (Hwf _ _ Hreg))
    as (arrs & failure & E & _ & Hrun).
  split; [now rewrite E|]. split; [now rewrite E|]. split.
  - intros inputItem Hinput. destruct (Hrun _ Hinput) as [Hfail _].
    split; [now rewrite E, Hfail|]. split; [now rewrite E, Hfail|].
    intros run' Hsame. unfold handleChatRequest.
    rewrite (servedUnder_eq _ _ _ Hid), Hreg. cbv zeta. rewrite Hinput, Hsame. reflexivity.
  - intros e Hthrow. unfold handleChatRequest.
    rewrite (servedUnder_eq _ _ _ Hid), Hreg. cbv zeta. rewrite Hthrow.
    cbn [snd status error_message]. repeat split.
Qed.

End GatewayFacts.

Section GatewayScenarios.
Import OpenAI HttpServer Vocabulary Samples.

Lemma chat_unregistered_id_witness :
  exists agent,
    sessionId (snd (sampleHandle "uuid-1" answers (requestFor (Some "my-session")) emptyServer))
      = "my-session" /\
    activeSessions
      (fst (sampleHandle "uuid-1" answers (requestFor (Some "my-session")) emptyServer))
      !! "my-session" = Some agent /\
    agent_approvalPolicy agent = SUGGEST /\
    agent_getCommandConfirmation agent = NO_CONTINUE /\
    agent_onItem agent = List.length (arrays emptyServer) /\
    (forall other, other <> "my-session" ->
        activeSessions
          (fst (sampleHandle "uuid-1" answers (requestFor (Some "my-session")) emptyServer))
          !! other
        = activeSessions emptyServer !! other).
Proof.
  apply (chat_unregistered_id_registers_read_only_agent
           string sampleReadFile sampleFileType sampleBase64 sampleConfig
           "uuid-1" answers (requestFor (Some "my-session")) emptyServer "my-session").
  - right. right. split; [reflexivity | discriminate].
  - reflexivity.
Defined.

(** C4 (as stated, refuted).  A request that names the session
    ["my-session"], unknown to an empty registry, is not given a fresh
    identifier: with [randomUUID()] ready to give ["uuid-1"], the response
    carries ["my-session"], the new agent is registered under
    ["my-session"], and nothing is registered under ["uuid-1"]. *)
Lemma chat_unknown_caller_id_is_not_replaced :
  let r := sampleHandle "uuid-1" answers (requestFor (Some "my-session")) emptyServer in
  activeSessions emptyServer !! "my-session" = None /\
  sessionId (snd r) = "my-session" /\
  sessionId (snd r) <> "uuid-1" /\
  activeSessions (fst r) !! "uuid-1" = None /\
  is_Some (activeSessions (fst r) !! "my-session").
Proof.
  cbv zeta. split; [reflexivity|].
  split; [vm_compute; reflexivity|].
  split; [vm_compute; discriminate|].
  split; [vm_compute; reflexivity|].
  vm_compute. eauto.
Qed.

(** C5, evaluated on a session that is used twice.  The first request
    creates the session ["s"]; the second, for the same session, runs a turn
    that emits one (read-only) item and then fails.  The failure is reported
    and the session keeps its agent, but the response carries no message:
    the emitted item has been pushed onto the first request's array. *)
Lemma chat_reused_session_failure_loses_emitted_items :
  let first := sampleHandle "uuid-1" answers (requestFor (Some "s")) emptyServer in
  let second := sampleHandle "uuid-2" failsAfterOneItem (requestFor (Some "s")) (fst first) in
  messages (snd first) = [firstAnswer] /\
  status (snd second) = error /\
  error_message (snd second) = Some "rate limit exceeded" /\
  sessionId (snd second) = "s" /\
  activeSessions (fst second) !! "s" = activeSessions (fst first) !! "s" /\
  is_Some (activeSessions (fst second) !! "s") /\
  filtered (emitted (failsAfterOneItem (newAgent sampleConfig 0) [])) = [secondAnswer] /\
  messages (snd second) = [] /\
  arrays (fst second) = [[firstAnswer; secondAnswer]; []].
Proof.
  cbv zeta. repeat split; try (vm_compute; reflexivity).
  vm_compute. eauto.
Qed.

(** The same failing turn on a session it creates: here the item is
    returned. *)
Example chat_new_session_failure_returns_item :
  let r := sampleHandle "uuid-1" failsAfterOneItem (requestFor None) emptyServer in
  sessionId (snd r) = "uuid-1" /\
  status (snd r) = error /\
  error_message (snd r) = Some "rate limit exceeded" /\
  messages (snd r) = [secondAnswer].
Proof. cbv zeta. repeat split; vm_compute; reflexivity. Qed.

Lemma emptyServer_sinksAllocated : sinksAllocated emptyServer.
Proof. intros id agent H. unfold emptyServer in H. cbn in H. now rewrite lookup_empty in H. Qed.

(** The session ["s"] is created by a first request; a second request for
    it completes, and a third, naming an image that does not exist, fails
    before the agent runs. *)
Lemma chat_registered_id_witness :
  let first := sampleHandle "uuid-1" answers (requestFor (Some "s")) emptyServer in
  let second := sampleHandle "uuid-2" answers (requestFor (Some "s")) (fst first) in
  let third :=
    sampleHandle "uuid-3" answers
      (mkChatRequest "Describe this" (Some ["missing.png"]) None (Some "s")) (fst first) in
  (activeSessions (fst second) = activeSessions (fst first) /\
   sessionId (snd second) = "s" /\
   status (snd second) = completed) /\
  (activeSessions (fst third) = activeSessions (fst first) /\
   sessionId (snd third) = "s" /\
   status (snd third) = error /\
   error_message (snd third)
   = Some "ENOENT: no such file or directory, open 'missing.png'" /\
   third = sampleHandle "uuid-3" failsAfterOneItem
             (mkChatRequest "Describe this" (Some ["missing.png"]) None (Some "s")) (fst first)).
Proof.
  cbv zeta. split.
  - destruct (chat_registered_id_reuses_agent
                string sampleReadFile sampleFileType sampleBase64 sampleConfig
                "uuid-2" answers (requestFor (Some "s"))
                (fst (sampleHandle "uuid-1" answers (requestFor (Some "s")) emptyServer))
                "s" (newAgent sampleConfig 0))
      as (Hreg & Hsid & Hok & _).
    + right. right. split; [reflexivity | discriminate].
    + apply handle_sinksAllocated, emptyServer_sinksAllocated.
    + vm_compute. reflexivity.
    + split; [exact Hreg|]. split; [exact Hsid|].
      exact (proj1 (Hok (mkMessage user (ContentParts [TextPart "Where is the entry point?"])
                           None None) eq_refl)).
  - destruct (chat_registered_id_reuses_agent
                string sampleReadFile sampleFileType sampleBase64 sampleConfig
                "uuid-3" answers
                (mkChatRequest "Describe this" (Some ["missing.png"]) None (Some "s"))
                (fst (sampleHandle "uuid-1" answers (requestFor (Some "s")) emptyServer))
                "s" (newAgent sampleConfig 0))
      as (Hreg & Hsid & _ & Hthrow).
    + right. right. split; [reflexivity | discriminate].
    + apply handle_sinksAllocated, emptyServer_sinksAllocated.
    + vm_compute. reflexivity.
    + destruct (Hthrow (ErrorObject "ENOENT: no such file or directory, open 'missing.png'")
                  eq_refl) as (Hstatus & Hmsg & Hsame).
      split; [exact Hreg|]. split; [exact Hsid|]. split; [exact Hstatus|].
      split; [exact Hmsg|]. symmetry. apply Hsame.
Defined.

(** Termination of sessions: an identifier that is not registered is
    answered 404 and the state is left as it is; a registered one is
    answered 200, removed from the registry (every other registration
    stays), and a second termination of it is answered 404. *)
Theorem terminate_cases (st : ServerState) (id : string) :
  (activeSessions st !! id = None -> handleSessionTerminate id st = (st, 404)) /\
  (is_Some (activeSessions st !! id) ->
   snd (handleSessionTerminate id st) = 200 /\
   activeSessions (fst (handleSessionTerminate id st)) !! id = None /\
   (forall other, other <> id ->
       activeSessions (fst (handleSessionTerminate id st)) !! other
       = activeSessions st !! other) /\
   snd (handleSessionTerminate id (fst (handleSessionTerminate id st))) = 404).
Proof.
  unfold handleSessionTerminate. split.
  - intros ->. reflexivity.
  - intros [agent ->]. cbn [fst snd activeSessions].
    rewrite lookup_delete_eq. repeat split.
    intros other Hne. now apply lookup_delete_ne.
Qed.

Lemma terminate_witness :
  let st := fst (sampleHandle "uuid-1" answers (requestFor (Some "s")) emptyServer) in
  handleSessionTerminate "never-created" st = (st, 404) /\
  snd (handleSessionTerminate "s" st) = 200 /\
  activeSessions (fst (handleSessionTerminate "s" st)) !! "s" = None /\
  snd (handleSessionTerminate "s" (fst (handleSessionTerminate "s" st))) = 404.
Proof.
  cbv zeta.
  pose proof (terminate_cases
                (fst (sampleHandle "uuid-1" answers (requestFor (Some "s")) emptyServer))
                "never-created") as [Hunknown _].
  pose proof (terminate_cases
                (fst (sampleHandle "uuid-1" answers (requestFor (Some "s")) emptyServer))
                "s") as [_ Hknown].
  split; [apply Hunknown; vm_compute; reflexivity|].
  destruct Hknown as (H200 & Hgone & _ & H404); [vm_compute; eauto|].
  auto.
Defined.

End GatewayScenarios.

(** ** The model-availability check *)

Section ModelFacts.
Import OpenAI ModelUtils.
Import Samples.

Lemma includes_spec (xs : list string) (x : string) :
  includes xs x = true <-> In x xs.
Proof.
  unfold includes. rewrite existsb_exists. split.
  - intros (y & Hin & Heq). apply String.eqb_eq in Heq. now subst.
  - intros Hin. exists x. split; [exact Hin | apply String.eqb_refl].
Qed.

Lemma includes_false (xs : list string) (x : string) :
  ~ In x xs -> includes xs x = false.
Proof.
  intros H. apply not_true_is_false. now rewrite includes_spec.
Qed.

(** C6 (amended).  Whatever the cache holds and whatever the network does:
    an absent model id, an id that is empty after trimming (in particular
    the empty string), and an allow-listed id (in particular ["o3"]) are
    supported.  For any other id, with [p] the promise the call races
    against the timer: if [p] is fulfilled before the timeout with a
    non-empty list that does not contain the trimmed id, the answer is
    [false]; if [p] settles only after the timeout, or never, the answer is
    [true]. *)
Theorem isModelSupported_cases
    (config : AppConfig) (net : Network) (cache : option ModelsPromise) :
  fst (isModelSupported None config net cache) = true /\
  fst (isModelSupported (Some "") config net cache) = true /\
  fst (isModelSupported (Some "o3") config net cache) = true /\
  (forall m, Js.trim m = "" \/ In m RECOMMENDED_MODELS ->
             fst (isModelSupported (Some m) config net cache) = true) /\
  (forall m t models,
      ~ In m RECOMMENDED_MODELS ->
      Js.trim m <> "" ->
      settlesAfter (fst (getAvailableModels config net cache)) = Some t ->
      t < MODEL_LIST_TIMEOUT_MS ->
      settlement (fst (getAvailableModels config net cache)) = Fulfilled models ->
      models <> [] ->
      ~ In (Js.trim m) models ->
      fst (isModelSupported (Some m) config net cache) = false) /\
  (forall m,
      settlesAfter (fst (getAvailableModels config net cache)) = None \/
      (exists t, settlesAfter (fst (getAvailableModels config net cache)) = Some t /\
                 MODEL_LIST_TIMEOUT_MS < t) ->
      fst (isModelSupported (Some m) config net cache) = true).
Proof.
  assert (Hallow : forall m, Js.trim m = "" \/ In m RECOMMENDED_MODELS ->
                             fst (isModelSupported (Some m) config net cache) = true).
  { intros m [Ht|Hin]; unfold isModelSupported.
    - rewrite Ht. reflexivity.
    - apply includes_spec in Hin. rewrite Hin, orb_true_r. reflexivity. }
  split; [reflexivity|].
  split; [apply Hallow; left; reflexivity|].
  split; [apply Hallow; right; simpl; auto|].
  split; [exact Hallow|]. split.
  - intros m t models Hnot Htrim Ht Hlt Hset Hne Hmiss.
    unfold isModelSupported.
    rewrite (includes_false _ _ Hnot).
    destruct (String.eqb_spec (Js.trim m) ""); [contradiction|]. cbn [orb].
    destruct (getAvailableModels config net cache) as [p cache'] eqn:Hp.
    cbn [fst] in Ht, Hset. unfold raceTimeout. rewrite Ht.
    apply Nat.ltb_lt in Hlt. rewrite Hlt, Hset.
    destruct models as [|x xs]; [contradiction|]. cbn [List.length Nat.eqb].
    cbn [fst]. now apply includes_false.
  - intros m Hlate.
    unfold isModelSupported.
    destruct (String.eqb (Js.trim m) "" || includes RECOMMENDED_MODELS m); [reflexivity|].
    destruct (getAvailableModels config net cache) as [p cache'] eqn:Hp.
    cbn [fst] in Hlate. unfold raceTimeout.
    destruct Hlate as [->|(t & -> & Hlt)]; [reflexivity|].
    assert (Nat.ltb t MODEL_LIST_TIMEOUT_MS = false) as -> by (apply Nat.ltb_ge; lia).
    reflexivity.
Qed.

(** The id ["nonexistent-model-xyz"] against a cache that
    resolves in time, one that resolves late, and one that never does; the
    same id padded with a no-break space and a tab; and an id made of white
    space only. *)
Lemma isModelSupported_witness :
  fst (isModelSupported (Some "nonexistent-model-xyz") sampleConfig Hangs
         (Some (mkPromise (Some 120) (Fulfilled ["gpt-4o"; "o3"])))) = false /\
  fst (isModelSupported (Some "nonexistent-model-xyz") sampleConfig Hangs
         (Some (mkPromise (Some 2500) (Fulfilled ["gpt-4o"; "o3"])))) = true /\
  fst (isModelSupported (Some "nonexistent-model-xyz") sampleConfig Hangs None) = true /\
  fst (isModelSupported
         (Some (noBreakSpace ++ "nonexistent-model-xyz" ++ String (ascii_of_nat 9) ""))
         sampleConfig Hangs
         (Some (mkPromise (Some 120) (Fulfilled ["gpt-4o"; "o3"])))) = false /\
  fst (isModelSupported (Some (" " ++ noBreakSpace)) sampleConfig Hangs
         (Some (mkPromise (Some 120) (Fulfilled ["gpt-4o"; "o3"])))) = true.
Proof.
  split; [|split; [|split; [|split]]].
  - apply (proj1 (proj2 (proj2 (proj2 (proj2
             (isModelSupported_cases sampleConfig Hangs
                (Some (mkPromise (Some 120) (Fulfilled ["gpt-4o"; "o3"]))))))))
           "nonexistent-model-xyz" 120 ["gpt-4o"; "o3"]).
    + simpl. intros [H|[H|[]]]; discriminate H.
    + vm_compute. discriminate.
    + reflexivity.
    + unfold MODEL_LIST_TIMEOUT_MS. lia.
    + reflexivity.
    + discriminate.
    + vm_compute. intros [H|[H|[]]]; discriminate H.
  - apply (proj2 (proj2 (proj2 (proj2 (proj2
             (isModelSupported_cases sampleConfig Hangs
                (Some (mkPromise (Some 2500) (Fulfilled ["gpt-4o"; "o3"]))))))))
           "nonexistent-model-xyz").
    right. exists 2500. split; [reflexivity | unfold MODEL_LIST_TIMEOUT_MS; lia].
  - apply (proj2 (proj2 (proj2 (proj2 (proj2
             (isModelSupported_cases sampleConfig Hangs None)))))
           "nonexistent-model-xyz").
    left. reflexivity.
  - apply (proj1 (proj2 (proj2 (proj2 (proj2
             (isModelSupported_cases sampleConfig Hangs
                (Some (mkPromise (Some 120) (Fulfilled ["gpt-4o"; "o3"]))))))))
           (noBreakSpace ++ "nonexistent-model-xyz" ++ String (ascii_of_nat 9) "")
           120 ["gpt-4o"; "o3"]).
    + simpl. intros [H|[H|[]]]; discriminate H.
    + vm_compute. discriminate.
    + reflexivity.
    + unfold MODEL_LIST_TIMEOUT_MS. lia.
    + reflexivity.
    + discriminate.
    + vm_compute. intros [H|[H|[]]]; discriminate H.
  - apply (proj1 (proj2 (proj2 (proj2
             (isModelSupported_cases sampleConfig Hangs
                (Some (mkPromise (Some 120) (Fulfilled ["gpt-4o"; "o3"])))))))
           (" " ++ noBreakSpace)).
    left. reflexivity.
Defined.

(** C6 (as stated, refuted).  The id ["gpt-4o "] (with a trailing space) is
    not allow-listed, and the cache resolves after 120 ms to the non-empty
    list [["gpt-4o"; "o3"]], which does not contain it; yet the answer is
    [true], because the list is searched for the trimmed id. *)
Lemma isModelSupported_padded_id_is_supported :
  ~ In "gpt-4o " RECOMMENDED_MODELS /\
  "gpt-4o " <> "" /\
  120 < MODEL_LIST_TIMEOUT_MS /\
  ["gpt-4o"; "o3"] <> [] /\
  ~ In "gpt-4o " ["gpt-4o"; "o3"] /\
  fst (isModelSupported (Some "gpt-4o ") sampleConfig Hangs
         (Some (mkPromise (Some 120) (Fulfilled ["gpt-4o"; "o3"])))) = true.
Proof.
  split; [simpl; intros [H|[H|[]]]; discriminate H|].
  split; [discriminate|].
  split; [unfold MODEL_LIST_TIMEOUT_MS; lia|].
  split; [discriminate|].
  split; [simpl; intros [H|[H|[]]]; discriminate H|].
  vm_compute. reflexivity.
Qed.

(** The same with the other white space [trim] removes: an id followed by
    a no-break space is looked up without it. *)
Example isModelSupported_no_break_space :
  Js.trim ("gpt-4o" ++ noBreakSpace) = "gpt-4o" /\
  fst (isModelSupported (Some ("gpt-4o" ++ noBreakSpace)) sampleConfig Hangs
         (Some (mkPromise (Some 120) (Fulfilled ["gpt-4o"; "o3"])))) = true /\
  isModelSupported (Some noBreakSpace) sampleConfig (ListsModels 50 [Some "gpt-4o"]) None
  = (true, None).
Proof. repeat split; vm_compute; reflexivity. Qed.

End ModelFacts.

(** ** The input builder *)

Section InputFacts.
Import OpenAI InputUtils Vocabulary.

Variable Buffer : Type.
Variable readFile : string -> Result Buffer.
Variable fileTypeFromBuffer : Buffer -> option string.
Variable toBase64 : Buffer -> string.

(** When every path can be read, the loop ends with the text part followed
    by one image part per path. *)
Lemma readImages_all_readable (images : list string) (content : list ContentPart) :
  (forall path, In path images -> exists binary, readFile path = Ok binary) ->
  exists parts,
    readImages Buffer readFile fileTypeFromBuffer toBase64 content images
      = Ok (content ++ parts)%list /\
    List.length parts = List.length images /\
    (forall part, In part parts -> exists binary, part = imagePartOf Buffer fileTypeFromBuffer toBase64 binary).
Proof.
  revert content. induction images as [|path rest IH]; intros content Hall.
  - exists []. simpl. rewrite app_nil_r. repeat split. intros part [].
  - destruct (Hall path (or_introl eq_refl)) as [binary Hread].
    destruct (IH (content ++ [imagePartOf Buffer fileTypeFromBuffer toBase64 binary])%list) as (parts & Hparts & Hlen & Himg).
    { intros p Hp. apply Hall. now right. }
    exists (imagePartOf Buffer fileTypeFromBuffer toBase64 binary :: parts). simpl. rewrite Hread.
    fold (imagePartOf Buffer fileTypeFromBuffer toBase64 binary). rewrite Hparts, <- app_assoc. simpl.
    repeat split; [now rewrite Hlen|].
    intros part [<-|Hin]; eauto.
Qed.

(** The first path that cannot be read makes the whole call fail with that
    read's error. *)
Lemma readImages_unreadable (before after : list string) (path : string) (e : Thrown)
    (content : list ContentPart) :
  (forall p, In p before -> exists binary, readFile p = Ok binary) ->
  readFile path = Throw e ->
  readImages Buffer readFile fileTypeFromBuffer toBase64 content (before ++ path :: after)%list
    = Throw e.
Proof.
  revert content. induction before as [|p before IH]; intros content Hall Hfail; simpl.
  - now rewrite Hfail.
  - destruct (Hall p (or_introl eq_refl)) as [binary ->].
    apply IH; [|exact Hfail]. intros q Hq. apply Hall. now right.
Qed.

(** C9 (amended).  For every prompt text and every list of image paths
    whose files can all be read, [createInputItem] returns the user message
    whose content is exactly one text part holding the prompt: the image
    parts built by the loop are not attached, so the result is the one
    obtained for an empty list of paths. *)
Theorem createInputItem_never_attaches_images (text : string) (images : list string) :
  (forall path, In path images -> exists binary, readFile path = Ok binary) ->
  createInputItem Buffer readFile fileTypeFromBuffer toBase64 text images
    = Ok {| role := user; content := ContentParts [TextPart text];
            tool_calls := None; tool_call_id := None |} /\
  createInputItem Buffer readFile fileTypeFromBuffer toBase64 text images
    = createInputItem Buffer readFile fileTypeFromBuffer toBase64 text [].
Proof.
  intros Hall. unfold createInputItem.
  destruct (readImages_all_readable images [TextPart text] Hall) as (parts & -> & _).
  split; reflexivity.
Qed.

(** When a file cannot be read the call returns no message at all. *)
Lemma createInputItem_unreadable (text : string) (before after : list string)
    (path : string) (e : Thrown) :
  (forall p, In p before -> exists binary, readFile p = Ok binary) ->
  readFile path = Throw e ->
  createInputItem Buffer readFile fileTypeFromBuffer toBase64 text (before ++ path :: after)%list
    = Throw e.
Proof.
  intros Hall Hfail. unfold createInputItem.
  now rewrite (readImages_unreadable before after path e _ Hall Hfail).
Qed.

End InputFacts.

Section InputScenarios.
Import OpenAI InputUtils Samples.

Lemma createInputItem_witness :
  createInputItem string sampleReadFile sampleFileType sampleBase64
    "Describe this logo" ["logo.png"]
    = Ok {| role := user; content := ContentParts [TextPart "Describe this logo"];
            tool_calls := None; tool_call_id := None |} /\
  createInputItem string sampleReadFile sampleFileType sampleBase64
    "Describe this logo" ["logo.png"]
    = createInputItem string sampleReadFile sampleFileType sampleBase64
        "Describe this logo" [].
Proof.
  apply (createInputItem_never_attaches_images
           string sampleReadFile sampleFileType sampleBase64
           "Describe this logo" ["logo.png"]).
  intros path [<-|[]]. exists "PNG". reflexivity.
Defined.

(** The loop did build the image part that the result leaves out. *)
Example readImages_builds_image_part :
  readImages string sampleReadFile sampleFileType sampleBase64
    [TextPart "Describe this logo"] ["logo.png"]
  = Ok [TextPart "Describe this logo"; ImageUrlPart "data:image/png;base64,UE5H"].
Proof. reflexivity. Qed.

(** C9 (as stated, refuted).  With a path that cannot be read the call
    returns no message: it fails with the error of the read, whereas the
    same prompt with no image path gives the user message. *)
Lemma createInputItem_unreadable_path_throws :
  createInputItem string sampleReadFile sampleFileType sampleBase64
    "Describe this logo" ["missing.png"]
    = Throw (ErrorObject "ENOENT: no such file or directory, open 'missing.png'") /\
  createInputItem string sampleReadFile sampleFileType sampleBase64
    "Describe this logo" []
    = Ok {| role := user; content := ContentParts [TextPart "Describe this logo"];
            tool_calls := None; tool_call_id := None |} /\
  createInputItem string sampleReadFile sampleFileType sampleBase64
    "Describe this logo" ["missing.png"]
    <> createInputItem string sampleReadFile sampleFileType sampleBase64
         "Describe this logo" [].
Proof.
  split; [reflexivity|]. split; [reflexivity|]. discriminate.
Qed.

End InputScenarios.

(** ** The Vertex AI client: flattening of message content *)

Section FlattenFacts.
Import VertexAI FlattenVocabulary VertexSamples.

Lemma concat_length (sep : string) (xs : list string) :
  String.length (String.concat sep xs)
  = list_sum (map String.length xs) + String.length sep * (List.length xs - 1).
Proof.
  induction xs as [|x xs IH]; [simpl; lia|].
  destruct xs as [|y ys].
  - simpl. lia.
  - change (String.concat sep (x :: y :: ys)) with (x ++ sep ++ String.concat sep (y :: ys)).
    rewrite !length_append, IH. simpl. lia.
Qed.

Lemma concat_app (sep : string) (xs ys : list string) :
  xs <> [] -> ys <> [] ->
  String.concat sep (xs ++ ys) = String.concat sep xs ++ sep ++ String.concat sep ys.
Proof.
  intros Hxs Hys. induction xs as [|x xs IH]; [contradiction|].
  destruct xs as [|x' xs].
  - destruct ys as [|y ys]; [contradiction|]. reflexivity.
  - change (String.concat sep ((x :: x' :: xs) ++ ys))
      with (x ++ sep ++ String.concat sep ((x' :: xs) ++ ys)).
    rewrite IH by discriminate.
    change (String.concat sep (x :: x' :: xs)) with (x ++ sep ++ String.concat sep (x' :: xs)).
    now rewrite !append_assoc.
Qed.

(** The callback of the source's [map] gives, for each element, what the
    specification says the element contributes. *)
Lemma partText_segment (c : PartElement) : Js.str_of (partText c) = segment c.
Proof.
  destruct c as [s|[type text]]; unfold segment; cbn [isTextElement partText part_type part_text];
    [reflexivity|].
  destruct (String.eqb type "text"); reflexivity.
Qed.

Lemma flattenContent_concat (parts : list PartElement) :
  flattenContent (ArrayContent parts) = String.concat " " (map segment parts).
Proof.
  unfold flattenContent. rewrite join_opt_concat, map_map.
  f_equal. apply map_ext. exact partText_segment.
Qed.

(** C7 (amended).  Content given as an array of parts is flattened to the
    join, with single spaces, of one segment per part: the text of a text
    part and the empty string for any other part.  A non-text part thus adds
    no character of its own but keeps its separator: the length of the
    result is the total length of the texts plus one less than the number of
    parts, and a non-text part between other parts leaves two spaces
    between what precedes and what follows it.  When every part is a text
    part, the result is the texts separated by exactly one space. *)
Theorem flattenContent_joins_one_segment_per_part (parts : list PartElement) :
  flattenContent (ArrayContent parts) = String.concat " " (map segment parts) /\
  String.length (flattenContent (ArrayContent parts))
    = list_sum (map (fun c => String.length (segment c)) parts) + (List.length parts - 1) /\
  (forallb isTextElement parts = true ->
   flattenContent (ArrayContent parts) = textsJoined parts) /\
  (forall before c after,
      parts = (before ++ c :: after)%list ->
      isTextElement c = false -> before <> [] -> after <> [] ->
      flattenContent (ArrayContent parts)
      = flattenContent (ArrayContent before) ++ "  " ++ flattenContent (ArrayContent after)) /\
  (forall role,
      vc_parts (toContent (mkChatMessage role (ArrayContent parts)))
      = [String.concat " " (map segment parts)]).
Proof.
  pose proof (flattenContent_concat parts) as E.
  split; [exact E|]. split; [|split; [|split]].
  - rewrite E, concat_length, map_map, length_map. simpl. lia.
  - intros Hall. rewrite E. unfold textsJoined. f_equal. f_equal.
    symmetry. apply filter_all. intros c Hc.
    rewrite forallb_forall in Hall. now apply Hall.
  - intros before c after -> Hc Hb Ha.
    rewrite !flattenContent_concat, map_app.
    rewrite concat_app; [|now destruct before|discriminate].
    cbn [map]. destruct after as [|c' after]; [contradiction|].
    change (String.concat " " (segment c :: map segment (c' :: after)))
      with (segment c ++ " " ++ String.concat " " (map segment (c' :: after))).
    unfold segment at 2. rewrite Hc. reflexivity.
  - intros role. unfold toContent. cbn [vc_parts msg_content]. now rewrite E.
Qed.

(** Two text parts, and the same two with an image part between them. *)
Lemma flattenContent_witness :
  flattenContent (ArrayContent [lookText; thanksText]) = textsJoined [lookText; thanksText] /\
  flattenContent (ArrayContent [lookText; imagePart; thanksText])
  = flattenContent (ArrayContent [lookText]) ++ "  " ++ flattenContent (ArrayContent [thanksText]).
Proof.
  split.
  - apply (proj1 (proj2 (proj2
             (flattenContent_joins_one_segment_per_part [lookText; thanksText])))).
    reflexivity.
  - apply (proj1 (proj2 (proj2 (proj2
             (flattenContent_joins_one_segment_per_part [lookText; imagePart; thanksText]))))
             [lookText] imagePart [thanksText]).
    + reflexivity.
    + reflexivity.
    + discriminate.
    + discriminate.
Defined.

(** C7 (as stated, refuted).  With an image part between two text parts the
    flattened text has two spaces between the texts, where the texts of the
    text parts separated by exactly one space would have one. *)
Lemma flattenContent_image_part_leaves_separator :
  flattenContent (ArrayContent [lookText; imagePart; thanksText]) = "Look at this:  thanks" /\
  textsJoined [lookText; imagePart; thanksText] = "Look at this: thanks" /\
  flattenContent (ArrayContent [lookText; imagePart; thanksText])
    <> textsJoined [lookText; imagePart; thanksText].
Proof.
  split; [reflexivity|]. split; [reflexivity|]. discriminate.
Qed.

End FlattenFacts.

(** ** The Vertex AI client: the stream adapter and its cancellation handle *)

Section StreamFacts.
Import VertexAI VertexSamples.

(** [abort] marks EOF and leaves the queue as it is. *)
Lemma abort_keeps_buffer (a : Adapter) :
  buffer (readable (abort a)) = buffer (readable a) /\
  ended (readable (abort a)) = true /\
  pumping (abort a) = pumping a /\
  vertexStream (abort a) = vertexStream a.
Proof. repeat split. Qed.

(** A chunk queued before the cancellation is still delivered after it. *)
Lemma abort_then_next_delivers_queued_chunk
    (a : Adapter) (chunk : ChatCompletionStreamOutput) (rest : list ChatCompletionStreamOutput) :
  destroyed (readable a) = false ->
  buffer (readable a) = chunk :: rest ->
  fst (next (readable (abort a))) = Item chunk.
Proof.
  intros Hlive Hbuf. unfold next, abort. cbn [readable pushNull destroyed buffer].
  now rewrite Hlive, Hbuf.
Qed.

(** With nothing queued and no error pending, the cancellation ends the
    iteration cleanly at the consumer's next step. *)
Lemma abort_on_drained_stream_ends_cleanly (a : Adapter) :
  destroyed (readable a) = false ->
  buffer (readable a) = [] ->
  errorEvent (readable a) = None ->
  fst (next (readable (abort a))) = Done.
Proof.
  intros Hlive Hbuf Herr. unfold next, abort.
  cbn [readable pushNull destroyed buffer errorEvent ended].
  now rewrite Hlive, Hbuf, Herr.
Qed.

(** A chunk pushed by the background loop between the cancellation and the
    end of the iteration destroys the stream with an error. *)
Lemma pump_after_abort_fails_stream
    (a : Adapter) (now : N) (chunk : VertexAIChunk) (rest : list VertexAIChunk) :
  pumping a = true ->
  vertexStream a = chunk :: rest ->
  destroyed (readable a) = false ->
  fst (next (readable (pump now (abort a)))) = Failed ERR_STREAM_PUSH_AFTER_EOF.
Proof.
  intros Hp Hs Hlive. unfold pump, abort.
  cbn [pumping vertexStream readable]. rewrite Hp, Hs.
  cbn [readable]. unfold push, pushNull. cbn [ended destroyed]. rewrite Hlive.
  reflexivity.
Qed.

(** C1, evaluated.  The provider has delivered two chunks and the
    background loop has queued both; the consumer takes the first and calls
    the cancellation handle; its next step still receives the second chunk,
    and only then does the iteration end. *)
Lemma abort_after_first_chunk_second_still_observed :
  snd (run [PumpStep 1700000000000%N; PumpStep 1700000000001%N;
            ConsumerNext; AbortCall; ConsumerNext; ConsumerNext] sampleStream)
  = [Item (transformChunk helloChunk "gemini-1.5-pro" 0 1700000000000%N);
     Item (transformChunk worldChunk "gemini-1.5-pro" 1 1700000000001%N);
     Done].
Proof. vm_compute. reflexivity. Qed.

(** The other interleaving: the consumer cancels after the first chunk
    while the second is still with the provider; the background loop then
    pushes it onto the ended stream, and the consumer's next step fails
    instead of ending cleanly. *)
Example abort_then_late_push_is_an_error :
  snd (run [PumpStep 1700000000000%N; ConsumerNext; AbortCall;
            PumpStep 1700000000001%N; ConsumerNext] sampleStream)
  = [Item (transformChunk helloChunk "gemini-1.5-pro" 0 1700000000000%N);
     Failed ERR_STREAM_PUSH_AFTER_EOF].
Proof. vm_compute. reflexivity. Qed.

(** Without cancellation the two chunks arrive in order and the iteration
    ends. *)
Example stream_without_abort :
  snd (run [PumpStep 1700000000000%N; ConsumerNext; PumpStep 1700000000001%N;
            PumpStep 1700000000002%N; ConsumerNext; ConsumerNext] sampleStream)
  = [Item (transformChunk helloChunk "gemini-1.5-pro" 0 1700000000000%N);
     Item (transformChunk worldChunk "gemini-1.5-pro" 1 1700000000001%N);
     Done].
Proof. vm_compute. reflexivity. Qed.

Example transformChunk_text :
  transformChunk worldChunk "gemini-1.5-pro" 1 1700000000001%N
  = {| out_id := "chatcmpl-1700000000001-1";
       out_object := "chat.completion.chunk";
       out_created := 1700000000%N;
       out_model := "gemini-1.5-pro";
       choice_index := 0;
       delta := {| delta_role := "assistant"; delta_content := Some ", world";
                   delta_tool_calls := None |};
       finish_reason := Some "STOP" |}.
Proof. vm_compute. reflexivity. Qed.

(** Each native chunk becomes one uniform chunk whose delta is either a
    content delta or a single-entry tool-call delta, never both: a function
    call in the first part takes precedence and then [content] is omitted.
    The role is always [assistant], and [finish_reason] is the native
    [finishReason] of the first candidate when it is a non-empty string,
    [null] otherwise. *)
Theorem transformChunk_delta_is_content_or_one_tool_call
    (chunk : VertexAIChunk) (model : string) (index : nat) (now : N) :
  let out := transformChunk chunk model index now in
  delta_role (delta out) = "assistant" /\
  out_model out = model /\
  ((exists call,
       delta_tool_calls (delta out) = Some [call] /\
       delta_content (delta out) = None /\
       call_type call = "function" /\
       exists p fc, firstPart chunk = Some p /\ functionCall p = Some fc /\
                    call_name call = fc_name fc)
   \/
   (exists content,
       delta_content (delta out) = Some content /\
       delta_tool_calls (delta out) = None /\
       (forall p, firstPart chunk = Some p -> functionCall p = None))) /\
  finish_reason out
  = match firstCandidate chunk with
    | Some c => nonEmpty (finishReason c)
    | None => None
    end.
Proof.
  cbv zeta. unfold transformChunk. cbn [delta out_model finish_reason].
  split; [|split; [reflexivity|split; [|reflexivity]]].
  - destruct (firstPart chunk) as [p|]; [destruct (functionCall p)|]; reflexivity.
  - destruct (firstPart chunk) as [p|] eqn:Hp.
    + destruct (functionCall p) as [fc|] eqn:Hfc.
      * left. eexists. cbn [delta_tool_calls delta_content].
        split; [reflexivity|]. split; [reflexivity|]. split; [reflexivity|].
        exists p, fc. auto.
      * right. eexists. cbn [delta_tool_calls delta_content].
        split; [reflexivity|]. split; [reflexivity|]. intros q [= <-]. exact Hfc.
    + right. eexists. cbn [delta_tool_calls delta_content].
      split; [reflexivity|]. split; [reflexivity|]. intros q [=].
Qed.

End StreamFacts.

(** * Further properties of the code *)

(** ** The model cache *)

Section ModelCacheFacts.
Import OpenAI ModelUtils.
Import Samples.

(** Once a fetch has been started, by [preloadModels], [getAvailableModels]
    or [isModelSupported], the cache holds its promise, and no later call,
    whatever configuration and network it runs with, starts another fetch or
    replaces the promise. *)
Theorem models_are_fetched_at_most_once
    (config : AppConfig) (net : Network) (cache : option ModelsPromise) :
  exists p,
    preloadModels config net cache = Some p /\
    getAvailableModels config net cache = (p, Some p) /\
    (forall q, cache = Some q -> p = q) /\
    (cache = None -> p = fetchModels config net) /\
    (forall config' net',
        getAvailableModels config' net' (Some p) = (p, Some p) /\
        preloadModels config' net' (Some p) = Some p /\
        (forall model, snd (isModelSupported model config' net' (Some p)) = Some p)).
Proof.
  destruct cache as [q|].
  - exists q. repeat split; try congruence.
    intros model. unfold isModelSupported. destruct model as [m|]; [|reflexivity].
    destruct (_ || _); [reflexivity|]. cbn [getAvailableModels].
    destruct (raceTimeout q) as [models|e]; [|reflexivity].
    destruct (Nat.eqb _ _); reflexivity.
  - exists (fetchModels config net). repeat split; try congruence.
    intros model. unfold isModelSupported. destruct model as [m|]; [|reflexivity].
    destruct (_ || _); [reflexivity|]. cbn [getAvailableModels].
    destruct (raceTimeout _) as [models|e]; [|reflexivity].
    destruct (Nat.eqb _ _); reflexivity.
Qed.

(** [isModelSupported] starts the fetch only when it needs the list: for an
    absent, blank or allow-listed id the cache is left as it is, for any
    other id the cache holds the promise afterwards. *)
Theorem isModelSupported_fetches_only_when_needed
    (config : AppConfig) (net : Network) (cache : option ModelsPromise) :
  snd (isModelSupported None config net cache) = cache /\
  (forall m, Js.trim m = "" \/ In m RECOMMENDED_MODELS ->
             snd (isModelSupported (Some m) config net cache) = cache) /\
  (forall m, Js.trim m <> "" -> ~ In m RECOMMENDED_MODELS ->
             snd (isModelSupported (Some m) config net cache)
             = preloadModels config net cache).
Proof.
  split; [reflexivity|]. split.
  - intros m [Ht|Hin]; unfold isModelSupported.
    + rewrite Ht. reflexivity.
    + apply includes_spec in Hin. rewrite Hin, orb_true_r. reflexivity.
  - intros m Ht Hnot. unfold isModelSupported.
    rewrite (includes_false _ _ Hnot).
    destruct (String.eqb_spec (Js.trim m) ""); [contradiction|]. cbn [orb].
    destruct cache as [q|]; cbn [getAvailableModels preloadModels snd];
      (destruct (raceTimeout _) as [models|e]; [|reflexivity]);
      destruct (Nat.eqb _ _); reflexivity.
Qed.

(** An allow-listed id, an id of white space only (a tab and a no-break
    space), and an id that needs the list. *)
Lemma isModelSupported_fetch_witness :
  snd (isModelSupported (Some "o3") sampleConfig (ListsModels 50 [Some "gpt-4o"]) None) = None /\
  snd (isModelSupported (Some (String (ascii_of_nat 9) noBreakSpace)) sampleConfig
         (ListsModels 50 [Some "gpt-4o"]) None) = None /\
  snd (isModelSupported (Some "gpt-4o") sampleConfig (ListsModels 50 [Some "gpt-4o"]) None)
  = preloadModels sampleConfig (ListsModels 50 [Some "gpt-4o"]) None.
Proof.
  split; [|split].
  - apply (proj1 (proj2 (isModelSupported_fetches_only_when_needed
                           sampleConfig (ListsModels 50 [Some "gpt-4o"]) None)) "o3").
    right. simpl. auto.
  - apply (proj1 (proj2 (isModelSupported_fetches_only_when_needed
                           sampleConfig (ListsModels 50 [Some "gpt-4o"]) None))
             (String (ascii_of_nat 9) noBreakSpace)).
    left. reflexivity.
  - apply (proj2 (proj2 (isModelSupported_fetches_only_when_needed
                           sampleConfig (ListsModels 50 [Some "gpt-4o"]) None)) "gpt-4o").
    + vm_compute. discriminate.
    + simpl. intros [H|[H|[]]]; discriminate H.
Defined.

(** With nothing cached, a missing (or empty) API key, a failing listing
    and a listing that never completes all leave every model id supported:
    the check does not block or reject when the list cannot be obtained. *)
Theorem isModelSupported_without_list_accepts_every_id
    (model : option string) (config : AppConfig) (net : Network) :
  truthy (apiKey config) = false \/ (exists delay, net = Fails delay) \/ net = Hangs ->
  fst (isModelSupported model config net None) = true.
Proof.
  intros H. unfold isModelSupported. destruct model as [m|]; [|reflexivity].
  destruct (_ || _); [reflexivity|]. cbn [getAvailableModels].
  assert (E : raceTimeout (fetchModels config net) = Fulfilled []).
  { unfold fetchModels, raceTimeout.
    destruct (truthy (apiKey config)) eqn:Hkey; cbn [negb].
    - destruct H as [H|[[delay ->]| ->]]; [discriminate| |reflexivity].
      cbn [settlesAfter settlement]. destruct (Nat.ltb _ _); reflexivity.
    - reflexivity. }
  rewrite E. reflexivity.
Qed.

Lemma isModelSupported_without_list_witness :
  fst (isModelSupported (Some "nonexistent-model-xyz")
         (mkConfig None None "o3" None) (ListsModels 50 [Some "gpt-4o"]) None) = true /\
  fst (isModelSupported (Some "nonexistent-model-xyz") sampleConfig (Fails 30) None) = true.
Proof.
  split.
  - apply (isModelSupported_without_list_accepts_every_id
             (Some "nonexistent-model-xyz") (mkConfig None None "o3" None)
             (ListsModels 50 [Some "gpt-4o"])).
    left. reflexivity.
  - apply (isModelSupported_without_list_accepts_every_id
             (Some "nonexistent-model-xyz") sampleConfig (Fails 30)).
    right. left. exists 30. reflexivity.
Defined.

(** With an API key and a listing that completes, the fetched list holds
    exactly the ids that are strings (as a multiset), in ascending order,
    and is available when the listing completes. *)
Theorem fetchModels_sorts_the_string_ids
    (config : AppConfig) (delay : nat) (entries : list (option string)) :
  truthy (apiKey config) = true ->
  exists models,
    fetchModels config (ListsModels delay entries) = mkPromise (Some delay) (Fulfilled models) /\
    models ≡ₚ omap (fun id => id) entries /\
    Sorted String.le models /\
    (forall id, In id models <-> In (Some id) entries).
Proof.
  intros Hkey. unfold fetchModels. rewrite Hkey. cbn [negb].
  eexists. split; [reflexivity|].
  assert (Hperm : merge_sort (fun a b => Is_true (String.leb a b)) (omap (fun id => id) entries)
                  ≡ₚ omap (fun id => id) entries) by apply merge_sort_Permutation.
  split; [exact Hperm|]. split.
  - apply (Sorted_merge_sort String.le).
  - intros id. rewrite <- !list_elem_of_In, Hperm, list_elem_of_omap.
    split.
    + intros (x & Hx & Hid). simpl in Hid. now subst.
    + intros Hin. exists (Some id). auto.
Qed.

Lemma fetchModels_witness :
  exists models,
    fetchModels sampleConfig (ListsModels 80 [Some "o3"; None; Some "gpt-4o"])
      = mkPromise (Some 80) (Fulfilled models) /\
    models ≡ₚ omap (fun id => id) [Some "o3"; None; Some "gpt-4o"] /\
    Sorted String.le models /\
    (forall id, In id models <-> In (Some id) [Some "o3"; None; Some "gpt-4o"]).
Proof.
  apply (fetchModels_sorts_the_string_ids sampleConfig 80 [Some "o3"; None; Some "gpt-4o"]).
  reflexivity.
Defined.

Example fetchModels_sample :
  fetchModels sampleConfig (ListsModels 80 [Some "o3"; None; Some "gpt-4o"])
  = mkPromise (Some 80) (Fulfilled ["gpt-4o"; "o3"]).
Proof. vm_compute. reflexivity. Qed.

(** When the list arrives in time and is not empty, an id that is neither
    blank nor allow-listed is supported exactly when its trimmed form is in
    the list; a promise rejected in time counts as support. *)
Theorem isModelSupported_looks_up_trimmed_id
    (m : string) (config : AppConfig) (net : Network) (p : ModelsPromise) (t : nat) :
  Js.trim m <> "" ->
  ~ In m RECOMMENDED_MODELS ->
  settlesAfter p = Some t ->
  t < MODEL_LIST_TIMEOUT_MS ->
  (forall models, settlement p = Fulfilled models -> models <> [] ->
      (fst (isModelSupported (Some m) config net (Some p)) = true <-> In (Js.trim m) models)) /\
  (forall e, settlement p = Rejected e ->
      fst (isModelSupported (Some m) config net (Some p)) = true).
Proof.
  intros Ht Hnot Hsettle Hlt.
  assert (E : isModelSupported (Some m) config net (Some p)
              = match settlement p with
                | Fulfilled models =>
                    if Nat.eqb (List.length models) 0 then (true, Some p)
                    else (includes models (Js.trim m), Some p)
                | Rejected _ => (true, Some p)
                end).
  { unfold isModelSupported. rewrite (includes_false _ _ Hnot).
    destruct (String.eqb_spec (Js.trim m) ""); [contradiction|]. cbn [orb getAvailableModels].
    unfold raceTimeout. rewrite Hsettle. apply Nat.ltb_lt in Hlt. now rewrite Hlt. }
  rewrite E. split.
  - intros models -> Hne. destruct models as [|x xs]; [contradiction|].
    cbn [List.length Nat.eqb fst]. apply includes_spec.
  - intros e ->. reflexivity.
Qed.

(** An id padded with a space and a no-break space against a list that
    arrives in time, and an id against a promise rejected in time. *)
Lemma isModelSupported_lookup_witness :
  (fst (isModelSupported (Some (" gpt-4o" ++ noBreakSpace)) sampleConfig Hangs
          (Some (mkPromise (Some 120) (Fulfilled ["gpt-4o"; "o3"])))) = true
   <-> In (Js.trim (" gpt-4o" ++ noBreakSpace)) ["gpt-4o"; "o3"]) /\
  fst (isModelSupported (Some "gpt-5") sampleConfig Hangs
         (Some (mkPromise (Some 120) (Rejected (ErrorObject "401 Unauthorized"))))) = true.
Proof.
  split.
  - apply (proj1 (isModelSupported_looks_up_trimmed_id (" gpt-4o" ++ noBreakSpace)
                    sampleConfig Hangs
                    (mkPromise (Some 120) (Fulfilled ["gpt-4o"; "o3"])) 120
                    ltac:(vm_compute; discriminate)
                    ltac:(simpl; intros [H|[H|[]]]; discriminate H)
                    eq_refl
                    ltac:(unfold MODEL_LIST_TIMEOUT_MS; lia))
             ["gpt-4o"; "o3"]).
    + reflexivity.
    + discriminate.
  - apply (proj2 (isModelSupported_looks_up_trimmed_id "gpt-5" sampleConfig Hangs
                    (mkPromise (Some 120) (Rejected (ErrorObject "401 Unauthorized"))) 120
                    ltac:(vm_compute; discriminate)
                    ltac:(simpl; intros [H|[H|[]]]; discriminate H)
                    eq_refl
                    ltac:(unfold MODEL_LIST_TIMEOUT_MS; lia))
             (ErrorObject "401 Unauthorized")).
    reflexivity.
Defined.

End ModelCacheFacts.

(** ** The Vertex AI client: conversion of the messages and the call *)

Section ConversionFacts.
Import VertexAI FlattenVocabulary VertexSamples.

(** The turns sent to the backend are the messages whose role is not
    [system], one turn per message and in their order; a turn is labelled
    [model] exactly when the message's role is [assistant] and [user]
    otherwise (also for [tool] and any other role); its single text is the
    flattened content; and converting a conversation piecewise gives the
    same turns. *)
Theorem contents_drops_system_and_maps_roles (messages more : list ChatMessage) :
  List.length (contents messages)
    = List.length (List.filter (fun msg => negb (isSystem msg)) messages) /\
  contents (messages ++ more) = (contents messages ++ contents more)%list /\
  (forall turn, In turn (contents messages) ->
      exists msg,
        In msg messages /\ msg_role msg <> "system" /\
        vc_parts turn = [flattenContent (msg_content msg)] /\
        (vc_role turn = "model" <-> msg_role msg = "assistant") /\
        (vc_role turn = "user" <-> msg_role msg <> "assistant")) /\
  (forall msg, In msg messages -> msg_role msg <> "system" ->
      In (toContent msg) (contents messages)).
Proof.
  unfold contents. cbv zeta. split; [|split; [|split]].
  - now rewrite length_map.
  - now rewrite List.filter_app, map_app.
  - intros turn (msg & <- & [Hin Hns]%filter_In)%in_map_iff.
    exists msg. split; [exact Hin|].
    apply negb_true_iff in Hns.
    split; [intros E; rewrite E in Hns; discriminate|].
    split; [reflexivity|]. unfold toContent. cbn [vc_role].
    destruct (String.eqb_spec (msg_role msg) "assistant") as [E|E];
      (split; split; intros H);
      try reflexivity; try assumption; try discriminate; contradiction.
  - intros msg Hin Hns. apply in_map, filter_In. split; [exact Hin|].
    apply negb_true_iff. now apply String.eqb_neq.
Qed.

(** The system instruction is taken from the first system message alone:
    there is none exactly when no message has the role [system], and the
    messages after the first system message, further system messages
    included, do not change it.  A further system message is in neither the
    instruction nor the turns. *)
Theorem systemInstruction_is_first_system_message
    (before after : list ChatMessage) (systemMessage : ChatMessage) :
  (forall msg, In msg before -> msg_role msg <> "system") ->
  msg_role systemMessage = "system" ->
  systemInstruction (before ++ systemMessage :: after)%list
    = Some {| vc_role := "system";
              vc_parts := [flattenContent (msg_content systemMessage)] |} /\
  systemInstruction before = None /\
  contents (before ++ systemMessage :: after)%list
    = (contents before ++ contents after)%list.
Proof.
  intros Hbefore Hsys.
  assert (Hfind : forall rest,
             List.find (fun msg => String.eqb (msg_role msg) "system") (before ++ rest)%list
             = List.find (fun msg => String.eqb (msg_role msg) "system") rest).
  { intros rest. induction before as [|m before' IH]; [reflexivity|].
    simpl. destruct (String.eqb_spec (msg_role m) "system") as [E|_].
    - exfalso. apply (Hbefore m); [now left | exact E].
    - apply IH. intros x Hx. apply Hbefore. now right. }
  split; [|split].
  - unfold systemInstruction. rewrite Hfind. simpl. rewrite Hsys. reflexivity.
  - unfold systemInstruction.
    rewrite <- (app_nil_r before), Hfind. reflexivity.
  - unfold contents. cbv zeta. rewrite List.filter_app, map_app. simpl.
    rewrite Hsys. reflexivity.
Qed.

Lemma systemInstruction_witness :
  systemInstruction
    ([mkChatMessage "user" (StringContent "Hi")]
     ++ mkChatMessage "system" (StringContent "Be brief.")
        :: [mkChatMessage "system" (StringContent "Be verbose.")])%list
    = Some {| vc_role := "system"; vc_parts := ["Be brief."] |} /\
  systemInstruction [mkChatMessage "user" (StringContent "Hi")] = None /\
  contents
    ([mkChatMessage "user" (StringContent "Hi")]
     ++ mkChatMessage "system" (StringContent "Be brief.")
        :: [mkChatMessage "system" (StringContent "Be verbose.")])%list
    = (contents [mkChatMessage "user" (StringContent "Hi")]
       ++ contents [mkChatMessage "system" (StringContent "Be verbose.")])%list.
Proof.
  apply (systemInstruction_is_first_system_message
           [mkChatMessage "user" (StringContent "Hi")]
           [mkChatMessage "system" (StringContent "Be verbose.")]
           (mkChatMessage "system" (StringContent "Be brief."))).
  - intros msg [<-|[]]. discriminate.
  - reflexivity.
Defined.

End ConversionFacts.

Section CreateFacts.
Import VertexAI.

Variable Response : Type.
Variable generateContentStream :
  GenerativeModelParams -> GenerateRequest ->
  OpenAI.Result (list VertexAIChunk * option OpenAI.Thrown).
Variable generateContent :
  GenerativeModelParams -> GenerateRequest -> OpenAI.Result Response.

Local Abbreviation create := (VertexAI.create Response generateContentStream generateContent).

(** Tools are attached to the backend call exactly when at least one of
    them has the type [function]: a tool list that is absent, empty, or
    holds only entries of other types gives the very call made without
    tools. *)
Theorem create_ignores_tools_without_function_entries
    (model : string) (messages : list ChatMessage) (stream : bool)
    (tools : option (list FunctionTool)) :
  (forall entries tool, tools = Some entries -> In tool entries ->
                        tool_type tool <> "function") ->
  create (mkCreateOptions model messages stream tools)
  = create (mkCreateOptions model messages stream None).
Proof.
  intros Hnone. unfold VertexAI.create. cbn [opt_tools opt_model opt_messages opt_stream].
  destruct tools as [[|tool rest]|]; try reflexivity.
  cbv zeta. unfold functionDeclarations. rewrite length_map.
  rewrite (proj2 (filter_empty _ _)); [reflexivity|].
  intros x Hx. apply String.eqb_neq. exact (Hnone _ x eq_refl Hx).
Qed.


End CreateFacts.

Section CreateScenarios.
Import VertexAI VertexSamples.

Lemma create_ignores_tools_witness :
  create string sampleGenerateContentStream sampleGenerateContent
    (mkCreateOptions "gemini-1.5-pro" [mkChatMessage "user" (StringContent "Hi")] true
       (Some [retrievalTool]))
  = create string sampleGenerateContentStream sampleGenerateContent
      (mkCreateOptions "gemini-1.5-pro" [mkChatMessage "user" (StringContent "Hi")] true None).
Proof.
  apply (create_ignores_tools_without_function_entries
           string sampleGenerateContentStream sampleGenerateContent
           "gemini-1.5-pro" [mkChatMessage "user" (StringContent "Hi")] true
           (Some [retrievalTool])).
  intros entries tool [= <-] [<-|[]]. discriminate.
Defined.

End CreateScenarios.

(** ** The stream adapter when the cancellation handle is not used *)

Section StreamInvariant.
Import VertexAI StreamVocabulary VertexSamples.
















(** A provider iteration that breaks after two chunks, read late and read
    from the start. *)
Example stream_error_is_lost_without_listener :
  snd (run [PumpStep 1%N; PumpStep 2%N; PumpStep 3%N;
            ConsumerNext; ConsumerNext; ConsumerNext; ConsumerNext]
         (createStreamAdapter [helloChunk; worldChunk] (Some connectionReset) "gemini-1.5-pro"))
  = [Item (transformChunk helloChunk "gemini-1.5-pro" 0 1%N);
     Item (transformChunk worldChunk "gemini-1.5-pro" 1 2%N);
     Pending; Pending] /\
  snd (run [ConsumerNext; PumpStep 1%N; PumpStep 2%N; PumpStep 3%N;
            ConsumerNext; ConsumerNext; ConsumerNext]
         (createStreamAdapter [helloChunk; worldChunk] (Some connectionReset) "gemini-1.5-pro"))
  = [Pending;
     Item (transformChunk helloChunk "gemini-1.5-pro" 0 1%N);
     Item (transformChunk worldChunk "gemini-1.5-pro" 1 2%N);
     Failed connectionReset].
Proof. split; vm_compute; reflexivity. Qed.

End StreamInvariant.

(** ** The capability filter: what it never does *)

Section FilterSafety.
Import OpenAI HttpServer Vocabulary Samples.

(** The filter never changes the role or the [tool_call_id] of a message,
    never adds a tool call (the calls of the result are among those of the
    message), and the result of filtering an assistant message carries no
    write-capability call. *)
Lemma filter_result_safe (item : ChatCompletionMessageParam) :
  exists out,
    filterMessageForReadOnly item = Some out /\
    role out = role item /\
    tool_call_id out = tool_call_id item /\
    (forall tc, In tc (toolCallsOf out) -> In tc (toolCallsOf item)) /\
    (role item = assistant ->
     forall tc, In tc (toolCallsOf out) -> isWriteToolCall tc = false).
Proof.
  destruct (isAssistant (role item)) eqn:Hrole.
  - assert (Hr' : role item = assistant) by (destruct (role item); now try discriminate).
    destruct (tool_calls item) as [calls|] eqn:Hcalls.
    + destruct (Nat.ltb 0 (List.length (List.filter isWriteToolCall calls))) eqn:Hw.
      * apply filter_nonempty in Hw.
        destruct (Nat.ltb 0 (List.length (List.filter isReadOnlyToolCall calls))) eqn:Hr.
        -- apply filter_nonempty in Hr.
           rewrite (filter_mixed_eq item calls Hr' Hcalls Hw Hr).
           eexists. split; [reflexivity|]. unfold toolCallsOf. rewrite Hcalls.
           cbn [role tool_call_id tool_calls].
           split; [auto|]. split; [reflexivity|]. split.
           ++ intros tc [Hin _]%filter_In. exact Hin.
           ++ intros _ tc [_ Htc]%filter_In. now apply read_not_write.
        -- pose proof (proj1 (filter_empty _ _) Hr) as Hnr.
           rewrite (filter_no_read_eq item calls Hr' Hcalls Hw Hnr).
           eexists. split; [reflexivity|]. unfold toolCallsOf.
           cbn [role tool_call_id tool_calls].
           split; [auto|]. split; [reflexivity|]. split; [intros tc []|intros _ tc []].
      * pose proof (proj1 (filter_empty _ _) Hw) as Hnw.
        exists item. split.
        { apply filter_no_write_passthrough. unfold toolCallsOf. now rewrite Hcalls. }
        repeat split; auto. intros _ tc Htc. unfold toolCallsOf in Htc.
        rewrite Hcalls in Htc. now apply Hnw.
    + exists item. split.
      { apply filter_no_write_passthrough. unfold toolCallsOf. rewrite Hcalls. intros tc []. }
      repeat split; auto. intros _ tc Htc. unfold toolCallsOf in Htc.
      rewrite Hcalls in Htc. destruct Htc.
  - exists item. split.
    { unfold filterMessageForReadOnly, filterAssistantToolCalls.
      rewrite Hrole. destruct (isTool _ && _); reflexivity. }
    repeat split; auto. intros E. rewrite E in Hrole. discriminate.
Qed.

Lemma filtered_noWriteCalls (items : list ChatCompletionMessageParam) :
  noWriteCalls (filtered items).
Proof.
  intros m tc Hm Hrole Htc. unfold filtered in Hm.
  apply list_elem_of_In, list_elem_of_omap in Hm as (item & _ & Hout).
  destruct (filter_result_safe item) as (out & Hf & Hr & _ & _ & Hsafe).
  rewrite Hf in Hout. injection Hout as ->.
  apply Hsafe; [congruence | exact Htc].
Qed.

(** What the server accumulates from the items of a turn: one message per
    item, in emission order (the filter omits none); each with the role and
    [tool_call_id] of its item and with no tool call that the item did not
    carry; and no assistant message among them carries a write-capability
    call. *)
Theorem filtered_keeps_every_item_and_adds_no_call
    (items : list ChatCompletionMessageParam) :
  List.length (filtered items) = List.length items /\
  Forall2
    (fun item out =>
       filterMessageForReadOnly item = Some out /\
       role out = role item /\
       tool_call_id out = tool_call_id item /\
       forall tc, In tc (toolCallsOf out) -> In tc (toolCallsOf item))
    items (filtered items) /\
  noWriteCalls (filtered items).
Proof.
  assert (H : Forall2
                (fun item out =>
                   filterMessageForReadOnly item = Some out /\
                   role out = role item /\
                   tool_call_id out = tool_call_id item /\
                   forall tc, In tc (toolCallsOf out) -> In tc (toolCallsOf item))
                items (filtered items)).
  { induction items as [|item items IH]; [constructor|].
    unfold filtered. simpl.
    destruct (filter_result_safe item) as (out & Hf & Hr & Hid & Hsub & _).
    rewrite Hf. constructor; [auto | exact IH]. }
  split; [symmetry; exact (Forall2_length _ _ _ H)|].
  split; [exact H | apply filtered_noWriteCalls].
Qed.

End FilterSafety.

(** ** The request listener *)

Section ListenerFacts.
Import OpenAI HttpServer Vocabulary.

Variable Buffer : Type.
Variable readFile : string -> Result Buffer.
Variable fileTypeFromBuffer : Buffer -> option string.
Variable toBase64 : Buffer -> string.

Local Abbreviation handle :=
  (handleChatRequest Buffer readFile fileTypeFromBuffer toBase64).
Local Abbreviation listen :=
  (requestListener Buffer readFile fileTypeFromBuffer toBase64).

Lemma split_without_separator (sep : ascii) (s : string) :
  hasChar sep s = false -> Js.split sep s = [s].
Proof.
  induction s as [|c s IH]; [reflexivity|]. simpl.
  intros [Hc Hs]%orb_false_iff. rewrite Hc, (IH Hs). reflexivity.
Qed.

Lemma split_at_separator (sep : ascii) (s rest : string) :
  hasChar sep s = false ->
  Js.split sep (s ++ String sep rest) = s :: Js.split sep rest.
Proof.
  induction s as [|c s IH]; intros H.
  - simpl. now rewrite Ascii.eqb_refl.
  - simpl in H. apply orb_false_iff in H as [Hc Hs].
    rewrite append_cons. simpl. rewrite Hc, (IH Hs). reflexivity.
Qed.

Lemma startsWith_append (prefix tail : string) :
  Js.startsWith (prefix ++ tail) prefix = true.
Proof.
  unfold Js.startsWith. induction prefix as [|c prefix IH]; [now destruct tail|].
  rewrite append_cons. simpl. destruct (ascii_dec c c); [exact IH | contradiction].
Qed.

(** The session a [DELETE] request names is the path segment after
    [/sessions/]: for an identifier that is not empty and holds no slash,
    [DELETE /sessions/<id>] terminates exactly that session, also when
    further segments follow; what the handler answers is what is written. *)
Theorem delete_terminates_the_named_session
    (config : ModelUtils.AppConfig) (uuid : string)
    (run : AgentLoop -> list ChatCompletionMessageParam -> AgentTurn)
    (body : Result (option ChatRequest)) (st : ServerState) (id more : string) :
  id <> "" ->
  hasChar slash id = false ->
  (listen config uuid run (mkHttpRequest "DELETE" (Some ("/sessions/" ++ id)) body) st
   = (fst (handleSessionTerminate id st),
      mkHttpResponse (snd (handleSessionTerminate id st))
        (if Nat.eqb (snd (handleSessionTerminate id st)) 200
         then MessageBody "Session terminated" else ErrorBody "Session not found"))) /\
  listen config uuid run
    (mkHttpRequest "DELETE" (Some ("/sessions/" ++ id ++ String slash more)) body) st
  = listen config uuid run (mkHttpRequest "DELETE" (Some ("/sessions/" ++ id)) body) st.
Proof.
  intros Hne Hslash.
  assert (Hsplit : forall tail,
             nth_error (Js.split slash ("/sessions/" ++ tail)) 2
             = nth_error (Js.split slash tail) 0).
  { intros tail.
    change ("/sessions/" ++ tail) with ("" ++ String slash ("sessions" ++ String slash tail)).
    rewrite split_at_separator by reflexivity.
    rewrite split_at_separator by reflexivity. reflexivity. }
  assert (Hone : forall tail,
             nth_error (Js.split slash tail) 0 = Some id ->
             listen config uuid run (mkHttpRequest "DELETE" (Some ("/sessions/" ++ tail)) body) st
             = (fst (handleSessionTerminate id st),
                mkHttpResponse (snd (handleSessionTerminate id st))
                  (if Nat.eqb (snd (handleSessionTerminate id st)) 200
                   then MessageBody "Session terminated"
                   else ErrorBody "Session not found"))).
  { intros tail Hid. unfold requestListener.
    cbn [http_method http_pathname http_body].
    change (String.eqb "DELETE" "OPTIONS") with false.
    change (String.eqb "DELETE" "POST") with false.
    change (String.eqb "DELETE" "GET") with false.
    change (String.eqb "DELETE" "DELETE") with true.
    cbv iota. cbn [andb].
    rewrite startsWith_append, Hsplit, Hid.
    destruct id as [|c rest]; [contradiction|].
    destruct (handleSessionTerminate (String c rest) st) as [st' code]. reflexivity. }
  split.
  - apply Hone. now rewrite split_without_separator.
  - rewrite (Hone (id ++ String slash more)), (Hone id); try reflexivity.
    + now rewrite split_without_separator.
    + now rewrite split_at_separator.
Qed.


Lemma servedUnder_exists (req : ChatRequest) (uuid : string) :
  exists id, servedUnder req uuid id.
Proof.
  unfold servedUnder. destruct (req_sessionId req) as [s|]; [|eauto].
  destruct (String.eqb_spec s ""); subst; eauto 6.
Qed.

Lemma handle_registryReadOnly (config : ModelUtils.AppConfig) (uuid : string)
    (run : AgentLoop -> list ChatCompletionMessageParam -> AgentTurn)
    (req : ChatRequest) (st : ServerState) :
  sinksAllocated st ->
  registryReadOnly config st ->
  registryReadOnly config (fst (handle config uuid run req st)).
Proof.
  intros Hwf Hro. destruct (servedUnder_exists req uuid) as [id Hid].
  destruct (activeSessions st !! id) as [agent|] eqn:Hreg.
  - destruct (handle_known_session Buffer readFile fileTypeFromBuffer toBase64
                config uuid run req st id agent Hid Hreg (Hwf _ _ Hreg))
      as (arrs & failure & -> & _). exact Hro.
  - rewrite (handle_new_session Buffer readFile fileTypeFromBuffer toBase64
               config uuid run req st id Hid Hreg). cbv zeta.
    destruct (turnOutcome _ _ _ _ _ _ _ _) as [msgs failure].
    intros k a. cbn [fst activeSessions].
    destruct (decide (id = k)) as [<-|Hne].
    + rewrite lookup_insert_eq. intros [= <-]. repeat split.
    + rewrite lookup_insert_ne by exact Hne. apply Hro.
Qed.

Lemma handle_noWriteCalls (config : ModelUtils.AppConfig) (uuid : string)
    (run : AgentLoop -> list ChatCompletionMessageParam -> AgentTurn)
    (req : ChatRequest) (st : ServerState) :
  sinksAllocated st ->
  noWriteCalls (messages (snd (handle config uuid run req st))).
Proof.
  intros Hwf. destruct (servedUnder_exists req uuid) as [id Hid].
  destruct (activeSessions st !! id) as [agent|] eqn:Hreg.
  - rewrite (chat_reused_session_returns_no_items Buffer readFile fileTypeFromBuffer toBase64
               config uuid run req st id agent Hid Hwf Hreg).
    intros m tc [].
  - rewrite (handle_new_session Buffer readFile fileTypeFromBuffer toBase64
               config uuid run req st id Hid Hreg). cbv zeta.
    unfold turnOutcome.
    destruct (InputUtils.createInputItem _ _ _ _ _ _) as [inputItem|e]; cbn [snd messages].
    + apply filtered_noWriteCalls.
    + intros m tc [].
Qed.

(** What every request keeps true of the server. *)
Lemma listener_keeps_server_read_only (config : ModelUtils.AppConfig) (uuid : string)
    (run : AgentLoop -> list ChatCompletionMessageParam -> AgentTurn)
    (req : HttpRequest) (st : ServerState) :
  sinksAllocated st ->
  registryReadOnly config st ->
  sinksAllocated (fst (listen config uuid run req st)) /\
  registryReadOnly config (fst (listen config uuid run req st)) /\
  (forall chat, http_payload (snd (listen config uuid run req st)) = ChatBody chat ->
                noWriteCalls (messages chat)).
Proof.
  intros Hwf Hro. unfold requestListener.
  destruct (String.eqb (http_method req) "OPTIONS");
    [cbn [fst snd http_payload]; (split; [assumption | split; [assumption | intros chat; discriminate]])|].
  cbv zeta.
  destruct (String.eqb (http_method req) "POST"
            && match http_pathname req with Some q => String.eqb q "/chat" | None => false end).
  { destruct (http_body req) as [[chatRequest|]|e];
      [|cbn [fst snd http_payload]; (split; [assumption | split; [assumption | intros chat; discriminate]])..].
    pose proof (handle_sinksAllocated Buffer readFile fileTypeFromBuffer toBase64
                  config uuid run chatRequest st Hwf) as H1.
    pose proof (handle_registryReadOnly config uuid run chatRequest st Hwf Hro) as H2.
    pose proof (handle_noWriteCalls config uuid run chatRequest st Hwf) as H3.
    destruct (handle config uuid run chatRequest st) as [st' response].
    cbn [fst snd http_payload] in *.
    split; [assumption | split; [assumption | intros chat [= <-]; exact H3]]. }
  destruct (String.eqb (http_method req) "GET"
            && match http_pathname req with Some q => String.eqb q "/health" | None => false end);
    [cbn [fst snd http_payload]; (split; [assumption | split; [assumption | intros chat; discriminate]])|].
  destruct (String.eqb (http_method req) "DELETE"
            && match http_pathname req with
               | Some q => Js.startsWith q "/sessions/"
               | None => false
               end);
    [|cbn [fst snd http_payload]; (split; [assumption | split; [assumption | intros chat; discriminate]])].
  destruct (match http_pathname req with
            | Some q => nth_error (Js.split slash q) 2
            | None => None
            end) as [[|c rest]|];
    try (cbn [fst snd http_payload]; (split; [assumption | split; [assumption | intros chat; discriminate]])).
  unfold handleSessionTerminate.
  destruct (activeSessions st !! String c rest) eqn:Hreg; cbn [fst snd http_payload Nat.eqb].
  - split; [|split].
    + intros k ag. cbn [activeSessions arrays]. intros Hk.
      apply lookup_delete_Some in Hk as [_ Hk]. exact (Hwf _ _ Hk).
    + intros k ag. cbn [activeSessions]. intros Hk.
      apply lookup_delete_Some in Hk as [_ Hk]. exact (Hro _ _ Hk).
    + intros chat [=].
  - split; [assumption | split; [assumption | intros chat; discriminate]].
Qed.

(** However many requests of whatever kind the server has handled since it
    started, and whatever approval mode they asked for: every registered
    agent is bound to the [SUGGEST] policy, denies every command
    confirmation and carries the read-only instructions; every agent's
    callback has its array; each request got one response; and no chat
    response carries an assistant message with a write-capability tool
    call. *)
Theorem server_stays_read_only
    (config : ModelUtils.AppConfig) (arrivals : list Arrival) :
  registryReadOnly config
    (fst (serveAll Buffer readFile fileTypeFromBuffer toBase64 config arrivals
            (mkServerState ∅ []))) /\
  sinksAllocated
    (fst (serveAll Buffer readFile fileTypeFromBuffer toBase64 config arrivals
            (mkServerState ∅ []))) /\
  List.length
    (snd (serveAll Buffer readFile fileTypeFromBuffer toBase64 config arrivals
            (mkServerState ∅ [])))
  = List.length arrivals /\
  (forall response chat,
      In response
        (snd (serveAll Buffer readFile fileTypeFromBuffer toBase64 config arrivals
                (mkServerState ∅ []))) ->
      http_payload response = ChatBody chat ->
      noWriteCalls (messages chat)).
Proof.
  unfold serveAll.
  assert (Hgen : forall acc : ServerState * list HttpResponse,
             registryReadOnly config (fst acc) ->
             sinksAllocated (fst acc) ->
             (forall response chat, In response (snd acc) ->
                 http_payload response = ChatBody chat -> noWriteCalls (messages chat)) ->
             let r :=
               fold_left
                 (fun acc arrival =>
                    let '(st', response) :=
                      listen config (arrival_uuid arrival) (arrival_run arrival)
                        (arrival_request arrival) (fst acc) in
                    (st', (snd acc ++ [response])%list))
                 arrivals acc in
             registryReadOnly config (fst r) /\
             sinksAllocated (fst r) /\
             List.length (snd r) = List.length (snd acc) + List.length arrivals /\
             (forall response chat, In response (snd r) ->
                 http_payload response = ChatBody chat -> noWriteCalls (messages chat))).
  { induction arrivals as [|arrival arrivals IH]; intros acc Hro Hwf Hresp; cbv zeta.
    - simpl. split; [assumption | split; [assumption | split; [lia | assumption]]].
    - simpl.
      destruct (listener_keeps_server_read_only config (arrival_uuid arrival)
                  (arrival_run arrival) (arrival_request arrival) (fst acc) Hwf Hro)
        as (Hwf' & Hro' & Hchat).
      destruct (listen config (arrival_uuid arrival) (arrival_run arrival)
                  (arrival_request arrival) (fst acc)) as [st' response].
      cbn [fst snd] in *.
      destruct (IH (st', (snd acc ++ [response])%list)) as (H1 & H2 & H3 & H4);
        cbn [fst snd]; auto.
      + intros resp chat [Hin|[<-|[]]]%in_app_or; eauto.
      + cbv zeta in H3. cbn [snd] in H3. rewrite length_app in H3. simpl in H3.
        split; [assumption | split; [assumption | split; [lia | assumption]]]. }
  destruct (Hgen (mkServerState ∅ [], [])) as (H1 & H2 & H3 & H4); cbn [fst snd].
  - intros id agent H. cbn in H. now rewrite lookup_empty in H.
  - intros id agent H. cbn in H. now rewrite lookup_empty in H.
  - intros response chat [].
  - simpl in H3. split; [assumption | split; [assumption | split; [assumption | assumption]]].
Qed.

(** After a session has been terminated, a chat request under its
    identifier builds a new agent whose callback writes to the array of this
    request, so the response carries the filtered items of the turn, in
    emission order. *)
Theorem terminate_then_chat_starts_afresh
    (config : ModelUtils.AppConfig) (uuid : string)
    (run : AgentLoop -> list ChatCompletionMessageParam -> AgentTurn)
    (req : ChatRequest) (st : ServerState) (id : string) (inputItem : ChatCompletionMessageParam) :
  servedUnder req uuid id ->
  is_Some (activeSessions st !! id) ->
  InputUtils.createInputItem Buffer readFile fileTypeFromBuffer toBase64
    (prompt req) (match imagePaths req with Some l => l | None => [] end) = Ok inputItem ->
  snd (handleSessionTerminate id st) = 200 /\
  activeSessions (fst (handle config uuid run req (fst (handleSessionTerminate id st)))) !! id
    = Some (newAgent config (List.length (arrays st))) /\
  sessionId (snd (handle config uuid run req (fst (handleSessionTerminate id st)))) = id /\
  messages (snd (handle config uuid run req (fst (handleSessionTerminate id st))))
    = filtered (emitted (run (newAgent config (List.length (arrays st))) [inputItem])).
Proof.
  intros Hid [agent Hreg] Hinput. unfold handleSessionTerminate. rewrite Hreg.
  cbn [fst snd]. split; [reflexivity|].
  rewrite (handle_new_session Buffer readFile fileTypeFromBuffer toBase64
             config uuid run req _ id Hid) by apply lookup_delete_eq.
  cbv zeta. unfold turnOutcome. rewrite Hinput. cbn [fst snd activeSessions arrays
    sessionId messages].
  rewrite lookup_insert_eq. repeat split.
Qed.

(** A chat request one of whose image files cannot be read fails before
    the agent is run: the response has status [error] with the message of
    the read error and no messages, whatever the agent would have done; yet
    the session is registered afterwards, since the agent is constructed
    before the input is built. *)
Theorem chat_unreadable_image_fails_before_turn
    (config : ModelUtils.AppConfig) (uuid : string)
    (run run' : AgentLoop -> list ChatCompletionMessageParam -> AgentTurn)
    (req : ChatRequest) (st : ServerState) (id : string) (e : Thrown) :
  servedUnder req uuid id ->
  InputUtils.createInputItem Buffer readFile fileTypeFromBuffer toBase64
    (prompt req) (match imagePaths req with Some l => l | None => [] end) = Throw e ->
  status (snd (handle config uuid run req st)) = error /\
  error_message (snd (handle config uuid run req st)) = Some (errorMessageOf e) /\
  messages (snd (handle config uuid run req st)) = [] /\
  sessionId (snd (handle config uuid run req st)) = id /\
  is_Some (activeSessions (fst (handle config uuid run req st)) !! id) /\
  handle config uuid run req st = handle config uuid run' req st.
Proof.
  intros Hid Hthrow. unfold handleChatRequest.
  rewrite (servedUnder_eq _ _ _ Hid). cbv zeta.
  destruct (activeSessions st !! id) as [agent|] eqn:Hreg; rewrite Hthrow;
    cbn [fst snd status error_message messages sessionId activeSessions];
    rewrite list_lookup_middle by reflexivity.
  - rewrite Hreg. repeat split; eauto.
  - rewrite lookup_insert_eq. repeat split; eauto.
Qed.

End ListenerFacts.

Section ListenerScenarios.
Import OpenAI HttpServer Vocabulary Samples.

Lemma delete_terminates_witness :
  (requestListener string sampleReadFile sampleFileType sampleBase64 sampleConfig
     "uuid-9" answers (mkHttpRequest "DELETE" (Some ("/sessions/" ++ "s")) (Throw OtherValue))
     (fst (sampleHandle "uuid-1" answers (requestFor (Some "s")) emptyServer))
   = (fst (handleSessionTerminate "s"
             (fst (sampleHandle "uuid-1" answers (requestFor (Some "s")) emptyServer))),
      mkHttpResponse
        (snd (handleSessionTerminate "s"
                (fst (sampleHandle "uuid-1" answers (requestFor (Some "s")) emptyServer))))
        (if Nat.eqb
              (snd (handleSessionTerminate "s"
                      (fst (sampleHandle "uuid-1" answers (requestFor (Some "s")) emptyServer))))
              200
         then MessageBody "Session terminated" else ErrorBody "Session not found"))) /\
  requestListener string sampleReadFile sampleFileType sampleBase64 sampleConfig
    "uuid-9" answers
    (mkHttpRequest "DELETE" (Some ("/sessions/" ++ "s" ++ String slash "messages"))
       (Throw OtherValue))
    (fst (sampleHandle "uuid-1" answers (requestFor (Some "s")) emptyServer))
  = requestListener string sampleReadFile sampleFileType sampleBase64 sampleConfig
      "uuid-9" answers (mkHttpRequest "DELETE" (Some ("/sessions/" ++ "s")) (Throw OtherValue))
      (fst (sampleHandle "uuid-1" answers (requestFor (Some "s")) emptyServer)).
Proof.
  apply (delete_terminates_the_named_session
           string sampleReadFile sampleFileType sampleBase64 sampleConfig
           "uuid-9" answers (Throw OtherValue)
           (fst (sampleHandle "uuid-1" answers (requestFor (Some "s")) emptyServer))
           "s" "messages").
  - discriminate.
  - reflexivity.
Defined.

(** The paths beside the one that names a session. *)
Example delete_without_session_id :
  snd (requestListener string sampleReadFile sampleFileType sampleBase64 sampleConfig
         "uuid-9" answers (mkHttpRequest "DELETE" (Some "/sessions/") (Throw OtherValue))
         emptyServer)
  = mkHttpResponse 400 (ErrorBody "Session ID required") /\
  snd (requestListener string sampleReadFile sampleFileType sampleBase64 sampleConfig
         "uuid-9" answers (mkHttpRequest "DELETE" (Some "/sessions") (Throw OtherValue))
         emptyServer)
  = mkHttpResponse 404 (ErrorBody "Not found") /\
  snd (requestListener string sampleReadFile sampleFileType sampleBase64 sampleConfig
         "uuid-9" answers (mkHttpRequest "GET" (Some "/health") (Throw OtherValue))
         emptyServer)
  = mkHttpResponse 200 (HealthBody "ok" "0.1.31").
Proof. repeat split; vm_compute; reflexivity. Qed.

(** A chat request whose body is the JSON text [null], one whose body is
    not JSON, and one whose body is a request object. *)
Example chat_bodies :
  requestListener string sampleReadFile sampleFileType sampleBase64 sampleConfig
    "uuid-9" answers (mkHttpRequest "POST" (Some "/chat") (Ok None)) emptyServer
  = (emptyServer, mkHttpResponse 500 (ErrorBody "Internal server error")) /\
  requestListener string sampleReadFile sampleFileType sampleBase64 sampleConfig
    "uuid-9" answers
    (mkHttpRequest "POST" (Some "/chat") (Throw (ErrorObject "Unexpected end of JSON input")))
    emptyServer
  = (emptyServer, mkHttpResponse 500 (ErrorBody "Internal server error")) /\
  snd (requestListener string sampleReadFile sampleFileType sampleBase64 sampleConfig
         "uuid-9" failsAfterOneItem
         (mkHttpRequest "POST" (Some "/chat") (Ok (Some (requestFor None)))) emptyServer)
  = mkHttpResponse 200
      (ChatBody (mkChatResponse "uuid-9" [secondAnswer] error (Some "rate limit exceeded"))).
Proof. repeat split; vm_compute; reflexivity. Qed.

Lemma terminate_then_chat_witness :
  snd (handleSessionTerminate "s"
         (fst (sampleHandle "uuid-1" answers (requestFor (Some "s")) emptyServer))) = 200 /\
  activeSessions
    (fst (sampleHandle "uuid-2" failsAfterOneItem (requestFor (Some "s"))
            (fst (handleSessionTerminate "s"
                    (fst (sampleHandle "uuid-1" answers (requestFor (Some "s")) emptyServer))))))
    !! "s"
  = Some (newAgent sampleConfig
            (List.length
               (arrays (fst (sampleHandle "uuid-1" answers (requestFor (Some "s")) emptyServer)))))
  /\
  sessionId
    (snd (sampleHandle "uuid-2" failsAfterOneItem (requestFor (Some "s"))
            (fst (handleSessionTerminate "s"
                    (fst (sampleHandle "uuid-1" answers (requestFor (Some "s")) emptyServer))))))
  = "s" /\
  messages
    (snd (sampleHandle "uuid-2" failsAfterOneItem (requestFor (Some "s"))
            (fst (handleSessionTerminate "s"
                    (fst (sampleHandle "uuid-1" answers (requestFor (Some "s")) emptyServer))))))
  = filtered
      (emitted
         (failsAfterOneItem
            (newAgent sampleConfig
               (List.length
                  (arrays
                     (fst (sampleHandle "uuid-1" answers (requestFor (Some "s")) emptyServer)))))
            [mkMessage user (ContentParts [TextPart "Where is the entry point?"]) None None])).
Proof.
  apply (terminate_then_chat_starts_afresh
           string sampleReadFile sampleFileType sampleBase64 sampleConfig
           "uuid-2" failsAfterOneItem (requestFor (Some "s"))
           (fst (sampleHandle "uuid-1" answers (requestFor (Some "s")) emptyServer))
           "s"
           (mkMessage user (ContentParts [TextPart "Where is the entry point?"]) None None)).
  - right. right. split; [reflexivity | discriminate].
  - vm_compute. eauto.
  - reflexivity.
Defined.

Lemma chat_unreadable_image_witness :
  status (snd (sampleHandle "uuid-1" answers
                 (mkChatRequest "Describe this" (Some ["missing.png"]) None None) emptyServer))
  = error /\
  error_message (snd (sampleHandle "uuid-1" answers
                        (mkChatRequest "Describe this" (Some ["missing.png"]) None None)
                        emptyServer))
  = Some (errorMessageOf
            (ErrorObject "ENOENT: no such file or directory, open 'missing.png'")) /\
  messages (snd (sampleHandle "uuid-1" answers
                   (mkChatRequest "Describe this" (Some ["missing.png"]) None None)
                   emptyServer)) = [] /\
  sessionId (snd (sampleHandle "uuid-1" answers
                    (mkChatRequest "Describe this" (Some ["missing.png"]) None None)
                    emptyServer)) = "uuid-1" /\
  is_Some (activeSessions
             (fst (sampleHandle "uuid-1" answers
                     (mkChatRequest "Describe this" (Some ["missing.png"]) None None)
                     emptyServer)) !! "uuid-1") /\
  sampleHandle "uuid-1" answers
    (mkChatRequest "Describe this" (Some ["missing.png"]) None None) emptyServer
  = sampleHandle "uuid-1" failsAfterOneItem
      (mkChatRequest "Describe this" (Some ["missing.png"]) None None) emptyServer.
Proof.
  apply (chat_unreadable_image_fails_before_turn
           string sampleReadFile sampleFileType sampleBase64 sampleConfig
           "uuid-1" answers failsAfterOneItem
           (mkChatRequest "Describe this" (Some ["missing.png"]) None None) emptyServer
           "uuid-1"
           (ErrorObject "ENOENT: no such file or directory, open 'missing.png'")).
  - left. split; reflexivity.
  - reflexivity.
Defined.

Lemma chat_new_session_items_witness :
  messages (snd (sampleHandle "uuid-1" failsAfterOneItem (requestFor None) emptyServer))
  = filtered
      (emitted
         (failsAfterOneItem (newAgent sampleConfig (List.length (arrays emptyServer)))
            [mkMessage user (ContentParts [TextPart "Where is the entry point?"]) None None])).
Proof.
  apply (chat_new_session_failure_returns_filtered_items
           string sampleReadFile sampleFileType sampleBase64 sampleConfig
           "uuid-1" failsAfterOneItem (requestFor None) emptyServer "uuid-1"
           (mkMessage user (ContentParts [TextPart "Where is the entry point?"]) None None)).
  - left. split; reflexivity.
  - reflexivity.
  - reflexivity.
Defined.

Lemma createInputItem_unreadable_witness :
  InputUtils.createInputItem string sampleReadFile sampleFileType sampleBase64
    "Compare these" (["logo.png"] ++ "missing.png" :: ["logo.png"])%list
  = Throw (ErrorObject "ENOENT: no such file or directory, open 'missing.png'").
Proof.
  apply (createInputItem_unreadable string sampleReadFile sampleFileType sampleBase64
           "Compare these" ["logo.png"] ["logo.png"] "missing.png"
           (ErrorObject "ENOENT: no such file or directory, open 'missing.png'")).
  - intros p [<-|[]]. exists "PNG". reflexivity.
  - reflexivity.
Defined.

End ListenerScenarios.

(** ** The test client *)

Section TestClientFacts.
Import TestClient.

(** The prompt is the first argument that does not start with [--]: it is
    absent exactly when every argument starts with [--], and every argument
    before it does.  The value of [--approval-mode] is such an argument, so
    when the flag comes first its value is taken as the prompt. *)
Theorem prompt_is_first_argument_without_dashes (args : list string) :
  (prompt args = None <-> forall arg, In arg args -> Js.startsWith arg "--" = true) /\
  (forall p, prompt args = Some p ->
     exists before after,
       args = (before ++ p :: after)%list /\
       Js.startsWith p "--" = false /\
       forall arg, In arg before -> Js.startsWith arg "--" = true) /\
  (forall value rest,
     args = "--approval-mode" :: value :: rest ->
     Js.startsWith value "--" = false ->
     prompt args = Some value /\ approvalMode args = Some value).
Proof.
  unfold prompt. split; [|split].
  - split.
    + intros Hnone arg Hin. pose proof (find_none _ _ Hnone arg Hin) as H.
      now apply negb_false_iff in H.
    + intros Hall. induction args as [|a args IH]; [reflexivity|]. simpl.
      rewrite (Hall a (or_introl eq_refl)). simpl. apply IH.
      intros arg Hin. apply Hall. now right.
  - induction args as [|a args IH]; intros p Hp; [discriminate|]. simpl in Hp.
    destruct (Js.startsWith a "--") eqn:Ha; simpl in Hp.
    + destruct (IH p Hp) as (before & after & -> & Hpd & Hbefore).
      exists (a :: before), after. repeat split; auto.
      intros arg [<-|Hin]; auto.
    + injection Hp as <-. exists [], args. repeat split; auto.
  - intros value rest -> Hvalue. simpl. rewrite Hvalue. split; reflexivity.
Qed.

Lemma prompt_witness :
  prompt ["--approval-mode"; "full-auto"; "Explain this code"] = Some "full-auto" /\
  approvalMode ["--approval-mode"; "full-auto"; "Explain this code"] = Some "full-auto".
Proof.
  apply (proj2 (proj2 (prompt_is_first_argument_without_dashes
                         ["--approval-mode"; "full-auto"; "Explain this code"]))
           "full-auto" ["Explain this code"]).
  - reflexivity.
  - reflexivity.
Defined.

Lemma substring0_length (n : nat) (s : string) :
  String.length (Js.substring0 n s) = Nat.min n (String.length s).
Proof.
  revert s. induction n as [|n IH]; intros [|c s]; simpl; auto.
Qed.

Lemma substring0_all (n : nat) (s : string) :
  String.length s <= n -> Js.substring0 n s = s.
Proof.
  revert s. induction n as [|n IH]; intros [|c s] H; simpl in *; try reflexivity; try lia.
  f_equal. apply IH. lia.
Qed.

Lemma substring0_prefix (n : nat) (s : string) :
  exists rest, s = Js.substring0 n s ++ rest.
Proof.
  revert s. induction n as [|n IH]; intros [|c s]; simpl; eauto.
  destruct (IH s) as [rest Hrest]. exists rest. rewrite append_cons. now f_equal.
Qed.

(** The text shown for an assistant message is the message itself when it
    has at most 200 characters; a longer one is cut to its first 200
    characters followed by three dots, so what is shown never exceeds 203
    characters. *)
Theorem preview_shows_at_most_200_characters (content : string) :
  String.length (preview content) <= 203 /\
  (String.length content <= 200 -> preview content = content) /\
  (200 < String.length content ->
     exists shown rest,
       content = shown ++ rest /\ String.length shown = 200 /\
       preview content = shown ++ "...").
Proof.
  unfold preview. split; [|split].
  - rewrite length_append, substring0_length.
    pose proof (Nat.le_min_l 200 (String.length content)) as Hmin.
    destruct (Nat.ltb 200 (String.length content));
      [change (String.length "...") with 3 | change (String.length "") with 0]; lia.
  - intros H. rewrite substring0_all by exact H.
    assert (Nat.ltb 200 (String.length content) = false) as -> by (apply Nat.ltb_ge; lia).
    apply append_nil_r.
  - intros H. destruct (substring0_prefix 200 content) as [rest Hrest].
    exists (Js.substring0 200 content), rest. split; [exact Hrest|].
    split; [rewrite substring0_length; apply Nat.min_l; lia|].
    apply Nat.ltb_lt in H. now rewrite H.
Qed.

Lemma preview_witness :
  preview "The entry point is cli.tsx." = "The entry point is cli.tsx.".
Proof.
  apply (proj1 (proj2 (preview_shows_at_most_200_characters "The entry point is cli.tsx."))).
  simpl. lia.
Defined.

End TestClientFacts.

(** ** From the call to the consumer *)

Section CreateStreamFacts.
Import VertexAI StreamVocabulary VertexSamples.

Variable Response : Type.
Variable generateContentStream :
  GenerativeModelParams -> GenerateRequest ->
  OpenAI.Result (list VertexAIChunk * option OpenAI.Thrown).
Variable generateContent :
  GenerativeModelParams -> GenerateRequest -> OpenAI.Result Response.


End CreateStreamFacts.

Section CreateStreamScenarios.
Import VertexAI StreamVocabulary VertexSamples.


(** Two chunks transformed at the same millisecond get different ids, and
    so do their tool calls, as soon as their indexes differ. *)
Theorem transformChunk_ids_differ_by_index
    (chunk chunk' : VertexAIChunk) (model model' : string) (index index' : nat) (now : N) :
  index <> index' ->
  out_id (transformChunk chunk model index now)
    <> out_id (transformChunk chunk' model' index' now) /\
  (forall call call',
      delta_tool_calls (delta (transformChunk chunk model index now)) = Some [call] ->
      delta_tool_calls (delta (transformChunk chunk' model' index' now)) = Some [call'] ->
      call_id call <> call_id call').
Proof.
  intros Hne.
  assert (Hinj : forall pre, pre ++ pretty now ++ "-" ++ pretty index
                             <> pre ++ pretty now ++ "-" ++ pretty index').
  { intros pre H. apply Hne.
    apply (inj (String.append pre)) in H.
    apply (inj (String.append (pretty now))) in H.
    apply (inj (String.append "-")) in H.
    now apply (inj pretty) in H. }
  split.
  - unfold transformChunk. cbn [out_id]. apply Hinj.
  - intros call call'. unfold transformChunk. cbn [delta].
    destruct (firstPart chunk) as [p|]; [destruct (functionCall p) as [fc|]|];
      cbn [delta_tool_calls]; try discriminate.
    destruct (firstPart chunk') as [p'|]; [destruct (functionCall p') as [fc'|]|];
      cbn [delta_tool_calls]; try discriminate.
    intros [= <-] [= <-]. cbn [call_id]. apply Hinj.
Qed.

Lemma transformChunk_ids_witness :
  out_id (transformChunk helloChunk "gemini-1.5-pro" 0 1700000000000%N)
    <> out_id (transformChunk worldChunk "gemini-1.5-pro" 1 1700000000000%N) /\
  (forall call call',
      delta_tool_calls (delta (transformChunk helloChunk "gemini-1.5-pro" 0 1700000000000%N))
        = Some [call] ->
      delta_tool_calls (delta (transformChunk worldChunk "gemini-1.5-pro" 1 1700000000000%N))
        = Some [call'] ->
      call_id call <> call_id call').
Proof.
  apply (transformChunk_ids_differ_by_index helloChunk worldChunk
           "gemini-1.5-pro" "gemini-1.5-pro" 0 1 1700000000000%N).
  discriminate.
Defined.

(** The scenario of the repository's own test: one chunk of text with a
    finish reason. *)
Example stream_of_one_text_chunk :
  snd (run [PumpStep 1700000000000%N; ConsumerNext]
         (createStreamAdapter
            [mkChunk (Some [mkCandidate
                              [mkContentPart (Some "Hello, this is a test response") None]
                              (Some "STOP")])]
            None "gemini-1.5-pro"))
  = [Item {| out_id := "chatcmpl-1700000000000-0";
             out_object := "chat.completion.chunk";
             out_created := 1700000000%N;
             out_model := "gemini-1.5-pro";
             choice_index := 0;
             delta := {| delta_role := "assistant";
                         delta_content := Some "Hello, this is a test response";
                         delta_tool_calls := None |};
             finish_reason := Some "STOP" |}].
Proof. vm_compute. reflexivity. Qed.

End CreateStreamScenarios.

Section ChatFailureScenario.
Import OpenAI HttpServer Vocabulary Samples.

Lemma chat_failure_witness :
  status (snd (sampleHandle "uuid-1" failsAfterOneItem (requestFor None) emptyServer)) = error /\
  error_message (snd (sampleHandle "uuid-1" failsAfterOneItem (requestFor None) emptyServer))
  = Some (errorMessageOf (ErrorObject "rate limit exceeded")) /\
  sessionId (snd (sampleHandle "uuid-1" failsAfterOneItem (requestFor None) emptyServer))
  = "uuid-1" /\
  is_Some (activeSessions
             (fst (sampleHandle "uuid-1" failsAfterOneItem (requestFor None) emptyServer))
             !! "uuid-1") /\
  (forall agent, activeSessions emptyServer !! "uuid-1" = Some agent ->
      activeSessions
        (fst (sampleHandle "uuid-1" failsAfterOneItem (requestFor None) emptyServer))
        !! "uuid-1" = Some agent).
Proof.
  apply (chat_failure_is_reported_and_session_kept
           string sampleReadFile sampleFileType sampleBase64 sampleConfig
           "uuid-1" failsAfterOneItem (requestFor None) emptyServer "uuid-1"
           (mkMessage user (ContentParts [TextPart "Where is the entry point?"]) None None)
           (ErrorObject "rate limit exceeded")).
  - left. split; reflexivity.
  - apply emptyServer_sinksAllocated.
  - reflexivity.
  - intros agent. reflexivity.
Defined.

End ChatFailureScenario.
